(** * PicoCoin node orchestration ([pico-cli.py]): a shallow embedding

    The file embeds the three classes of [pico-cli.py] ([CLI], [CoreServer],
    [MiningServer]) and the transaction construction of its [__main__] block.
    Coroutines are written in a small monad that threads the node's state,
    records the calls made to the collaborators ([core.Net], [core.Blockchain],
    the disk and the console) in a trace, and lets the other asyncio tasks run
    at every [await]. *)

From Stdlib Require Import ZArith.
From stdpp Require Import base option list strings pretty gmap.

Local Open Scope string_scope.
Local Open Scope Z_scope.
Local Open Scope list_scope.

(** ** Ledger entities (classes imported from [core]) *)

Definition Digest := string.
Definition Address := string.
Definition Signature := string.

(** The four actions [__main__] and [serve_mining] construct. *)
Inductive Action :=
| Invoice (amount : Z)
| Payment (amount : Z)
| Message (text : string)
| Reward (amount : Z) (block_hash : Digest).

Module Transaction.
Record t := Build {
  from_adr : option Address;
  to_adr : Address;
  act : Action;
  hash : option Digest;
  sign : option Signature
}.
End Transaction.

Module Pow.
Record t := Build { nonce : option Z; solver : Address }.
End Pow.

Module Block.
Record t := Build {
  prev : option Digest;
  trans : list Transaction.t;
  pow : Pow.t;
  hash : option Digest
}.
End Block.

Module Blockchain.
Record t := Build {
  ver : string;
  blocks : gmap Digest Block.t;
  hash : option Digest
}.

(** Modelled from the spec: [Blockchain.new_block] ([core.py] is not part of
    the sources).  "newBlockTemplate(solverAddress) -> Block — produces an
    unmined block (empty transaction list, nonce unset) whose previousHash is
    the current head." *)
Definition new_block (c : t) (solver : Address) : Block.t :=
  Block.Build (hash c) [] (Pow.Build None solver) None.

(** Modelled from the spec: [Blockchain.add_trans].  "addTransaction(block,
    transaction) — appends to a block template's transaction list; no
    validation is performed here". *)
Definition add_trans (c : t) (b : Block.t) (tx : Transaction.t) : Block.t :=
  Block.Build (Block.prev b) (Block.trans b ++ [tx]) (Block.pow b) (Block.hash b).
End Blockchain.

(** [BlockCheck.OK] is the only member [pico-cli.py] names. *)
Inductive RejectReason := BadProofOfWork | UnknownPrevious | DuplicateBlock | BadTransaction.
Inductive BlockCheck := OK | Rejected (why : RejectReason).

Definition is_OK (r : BlockCheck) : bool :=
  match r with OK => true | Rejected _ => false end.

Module Peer.
Record t := Build { ipv6 : string; port : Z }.
End Peer.

#[global] Instance Peer_eq_dec : EqDecision Peer.t.
Proof. solve_decision. Defined.

Module User.
Record t := Build { pub : Address; priv : string }.
End User.

(** ** JSON-like values and wire messages

    A message is a Python [dict] from keys to values.  [to_dict] of a block or
    of a transaction is kept as the record itself ([VBlock], [VTrans]); a peer
    list is a list of [{ipv6, port}] dictionaries. *)

Module PeerDict.
Record t := Build { ipv6 : string; port : Z }.
End PeerDict.

Inductive Value :=
| VNone
| VStr (s : string)
| VPeers (l : list PeerDict.t)
| VBlock (b : Block.t)
| VTrans (tx : Transaction.t).

Abbreviation Msg := (gmap string Value).

(** Python truthiness of [data.get(key)]: a missing key gives [None]; [None],
    the empty string and the empty list are falsy; the dictionary of a block
    or of a transaction always has fields and is truthy. *)
Definition truthy (v : option Value) : bool :=
  match v with
  | None | Some VNone => false
  | Some (VStr s) => negb (String.eqb s EmptyString)
  | Some (VPeers l) => negb (Nat.eqb (length l) 0)
  | Some (VBlock _) | Some (VTrans _) => true
  end.

Definition populated (m : Msg) (key : string) : bool := truthy (m !! key).

Definition populated_keys (m : Msg) : list string :=
  filter (fun key => populated m key = true) ["peers"; "block"; "trans"].

Definition one_populated_key (m : Msg) : bool :=
  Nat.eqb (length (populated_keys m)) 1.

(** ** The peer registry ([core.Net]) *)

Module Net.
(** Modelled from the spec: the class [core.Net] ([core.py] is not part of
    the sources).  "PeerSet: a set of Peers plus the local node's own
    advertised Peer entry"; [hash] is the argument of [Net(hash=None)] and
    [ipv6] the attribute [update_self_peer] reads. *)
Record t := Build {
  hash : option Digest;
  peers : list Peer.t;
  self_peer : option Peer.t;
  ipv6 : string
}.

Definition mem (p : Peer.t) (l : list Peer.t) : bool := bool_decide (p ∈ l).

Definition same_members (l1 l2 : list Peer.t) : bool :=
  forallb (fun p => mem p l2) l1 && forallb (fun p => mem p l1) l2.

(** Modelled from the spec: [Net.add_peer].  "addPeer(peer) — inserts if
    absent." *)
Definition add_peer (p : Peer.t) (n : t) : t :=
  if mem p (peers n) then n
  else Build (hash n) (peers n ++ [p]) (self_peer n) (ipv6 n).

(** Modelled from the spec: [Net.update_peer].  "updateOwnPeer(peer) —
    replaces the node's self-entry"; the peer set is "a set of Peers plus the
    local node's own advertised Peer entry". *)
Definition update_peer (p : Peer.t) (n : t) : t :=
  let others :=
    filter (fun q => Some q ≠ self_peer n ∧ q ≠ p) (peers n) in
  Build (hash n) (p :: others) (Some p) (ipv6 n).

(** Modelled from the spec: [Net.update_peers].  "mergePeers(candidates) ->
    boolean — replaces the peer membership with candidates if and only if the
    resulting set differs from the current one; returns whether a change
    occurred". *)
Definition update_peers (candidates : list Peer.t) (n : t) : t * bool :=
  if same_members candidates (peers n) then (n, false)
  else (Build (hash n) candidates (self_peer n) (ipv6 n), true).

Definition peer_to_dict (p : Peer.t) : PeerDict.t :=
  PeerDict.Build (Peer.ipv6 p) (Peer.port p).

(** Modelled from the spec: [Net.to_dict].  "Peer set file: { hash:
    digest-or-null, peers: [ { ipv6, port }, ... ] }". *)
Definition to_dict (n : t) : Msg :=
  <["hash" := from_option VStr VNone (hash n)]>
    {["peers" := VPeers (peer_to_dict <$> peers n)]}.
End Net.

(** ** Effects *)

Inductive Exn := KeyError | ValueError | TypeError | DecodeError | EOFError | AuthError.

Inductive Outcome (A : Type) :=
| Returned (a : A)
| Raised (e : Exn)
| Diverged.
Arguments Returned {A} a.
Arguments Raised {A} e.
Arguments Diverged {A}.

Inductive Persisted := PNet (n : Net.t) | PChain (c : Blockchain.t).

(** What [print] writes. *)
Inductive Line :=
| PeersUpdated
| WillBeInNextBlock (h12 : string)
| BlockSolved (h12 : string) (amount : Z)
| InvalidPassword
| ShowTrans (tx : Transaction.t).

(** The trace lists, in program order, the calls a coroutine makes to its
    collaborators, with the answers of the chain store and of the peer
    registry. *)
Inductive Event :=
| Send (msg : Msg)
| ToDisk (path : string) (obj : Persisted)
| Stdout (line : Line)
| CheckBlock (b : Block.t) (r : BlockCheck)
| AddBlock (b : Block.t) (changed : bool)
| UpdatePeers (l : list Peer.t) (changed : bool).

(** The node state, what the other asyncio tasks do at each of the coming
    suspension points, and the lines still to be typed on the console. *)
Record World (S : Type) := MkWorld {
  node : S;
  sched : list (S -> S);
  stdin : list string
}.
Arguments MkWorld {S} node sched stdin.
Arguments node {S} w.
Arguments sched {S} w.
Arguments stdin {S} w.

Definition M (S A : Type) : Type := World S -> Outcome A * World S * list Event.

Section monad.
Context {S : Type}.

Definition ret {A} (a : A) : M S A := fun w => (Returned a, w, []).

Definition bind {A B} (m : M S A) (k : A -> M S B) : M S B := fun w =>
  match m w with
  | (Returned a, w1, tr1) =>
      let '(o, w2, tr2) := k a w1 in (o, w2, tr1 ++ tr2)
  | (Raised e, w1, tr1) => (Raised e, w1, tr1)
  | (Diverged, w1, tr1) => (Diverged, w1, tr1)
  end.

Definition raise {A} (e : Exn) : M S A := fun w => (Raised e, w, []).

Definition get : M S S := fun w => (Returned (node w), w, []).

Definition put (s : S) : M S unit := fun w =>
  (Returned tt, MkWorld s (sched w) (stdin w), []).

Definition emit (e : Event) : M S unit := fun w => (Returned tt, w, [e]).

(** A suspension point ([await] of something that really suspends): the
    other tasks run once before the coroutine resumes. *)
Definition yield : M S unit := fun w =>
  let others := hd (fun s => s) (sched w) in
  (Returned tt, MkWorld (others (node w)) (tl (sched w)) (stdin w), []).

(** [asyncio.run(coro)] from synchronous code: a fresh event loop in which
    [coro] is the only task. *)
Definition asyncio_run {A} (m : M S A) : M S A := fun w =>
  let '(o, w1, tr) := m (MkWorld (node w) [] (stdin w)) in
  (o, MkWorld (node w1) (sched w) (stdin w1), tr).

Definition when (c : bool) (m : M S unit) : M S unit :=
  if c then m else ret tt.

End monad.

Notation "x <- m ;; k" := (bind m (fun x => k))
  (at level 100, m at next level, k at level 200, right associativity,
   format "'[v' x  <-  m  ;;  '/' k ']'").
Notation "m ;;; k" := (bind m (fun _ => k))
  (at level 100, k at level 200, right associativity,
   format "'[v' m  ;;;  '/' k ']'").

Section loops.
Context {S : Type}.

(** [for x in l: body(x)] *)
Fixpoint for_each {A} (l : list A) (body : A -> M S unit) : M S unit :=
  match l with
  | [] => ret tt
  | x :: rest => body x ;;; for_each rest body
  end.

(** [n] suspension points in a row. *)
Fixpoint yields (n : nat) : M S unit :=
  match n with
  | O => ret tt
  | Datatypes.S k => yield ;;; yields k
  end.

(** [input(prompt)]: the next console line, [EOFError] at end of input. *)
Definition input : M S string := fun w =>
  match stdin w with
  | [] => (Raised EOFError, w, [])
  | line :: rest => (Returned line, MkWorld (node w) (sched w) rest, [])
  end.

(** [data[key]] *)
Definition getitem (data : Msg) (key : string) : M S Value :=
  match data !! key with
  | Some v => ret v
  | None => raise KeyError
  end.

End loops.

(** ** Collaborators

    [core.py] and [miner.py] are imported by [pico-cli.py] and are not part of
    the sources; [int] is the Python builtin.  Their functions are taken as
    parameters.  A function that may raise returns an option. *)
Class Collaborators := {
  (** [Blockchain.check_block(block)] *)
  check_block : Blockchain.t -> Block.t -> BlockCheck;
  (** [Blockchain.add_block(block)]: the store after the call and the
      truth value of the result. *)
  add_block : Blockchain.t -> Block.t -> Blockchain.t * bool;
  (** [Blockchain.get_block_confirms(block)], also called with [None]. *)
  get_block_confirms : Blockchain.t -> option Block.t -> Z;
  (** [Blockchain.reward()] *)
  reward : Blockchain.t -> Z;
  (** [Block.dict_hash()] and [Transaction.dict_hash()] *)
  block_dict_hash : Block.t -> Digest;
  trans_dict_hash : Transaction.t -> Digest;
  (** [User.check_passwd(passwd)] *)
  check_passwd : User.t -> string -> option string;
  (** [Transaction.sign(usr, passwd)]: the transaction object after the
      call. *)
  trans_sign : User.t -> string -> Transaction.t -> option Transaction.t;
  (** [Miner.work()]: the block installed by [set_block] once solved, and
      the number of times the search suspended. *)
  miner_work : Block.t -> Block.t * nat;
  (** Whether a send to a peer goes through. *)
  delivered : Msg -> Peer.t -> bool;
  (** [int(s)] *)
  py_int : string -> option Z
}.

Inductive Store := TheNet | TheChain.

(** ** class CLI *)
Module CLI.

Record t := Build { net : Net.t; usr : User.t; chain : Blockchain.t }.

(** [CoreServer] and [MiningServer] inherit the attributes of [CLI]: the
    methods below run on every state that contains one. *)
Class State (S : Type) := {
  cli_of : S -> t;
  with_cli : t -> S -> S;
  cli_of_with_cli : forall c s, cli_of (with_cli c s) = c
}.

#[global] Instance self_state : State t :=
  {| cli_of := fun s => s; with_cli := fun c _ => c;
     cli_of_with_cli := fun _ _ => eq_refl |}.

Definition snapshot (obj : Store) (c : t) : Persisted :=
  match obj with
  | TheNet => PNet (net c)
  | TheChain => PChain (chain c)
  end.

(** The [maker] of [net_init], for a node whose address is [ipv6], and the
    one of [chain_init]. *)
Definition net_maker (ipv6 : string) : Net.t :=
  let net := Net.Build None [] None ipv6 in
  let net := Net.add_peer (Peer.Build "2002:c257:6f39::1" 10000) net in
  Net.add_peer (Peer.Build "2002:c257:65d4::1" 10000) net.

Definition chain_maker : Blockchain.t := Blockchain.Build "0.1" ∅ None.

Section methods.
Context {core : Collaborators} {S : Type} {st : State S}.

Definition self : M S t := s <- get ;; ret (cli_of s).

Definition set_net (n : Net.t) : M S unit :=
  s <- get ;;
  let c := cli_of s in
  put (with_cli (Build n (usr c) (chain c)) s).

Definition set_chain (bc : Blockchain.t) : M S unit :=
  s <- get ;;
  let c := cli_of s in
  put (with_cli (Build (net c) (usr c) bc) s).

(** Modelled from the spec: [Net.send].  "broadcast(message) — sends a
    structured message to every known peer concurrently; individual peer-send
    failures do not abort the broadcast to other peers (best-effort fan-out,
    no acknowledgment or retry)."  The call suspends; its result is the list
    of the sends' outcomes. *)
Definition net_send (msg : Msg) : M S (list bool) :=
  c <- self ;;
  emit (Send msg) ;;;
  yield ;;;
  ret (map (delivered msg) (Net.peers (net c))).

(** [obj] is the node's own object: what is written is its content once the
    file is open.  Opening, writing and closing the file each suspend. *)
Definition _dict_to_disk (obj : Store) (obj_path : string) : M S unit :=
  yield ;;;
  c <- self ;;
  emit (ToDisk obj_path (snapshot obj c)) ;;;
  yield ;;;
  yield.

(** The loop of [act_with_passwd] over the lines typed: an exception of
    [act] prints and asks again; at the end of the input [getpass] raises
    [EOFError], which the same handler catches, for ever. *)
Fixpoint act_with_passwd_loop {A} (act : string -> option A)
  (typed : list string) : Outcome A * list string * list Event :=
  match typed with
  | [] => (Diverged, [], [Stdout InvalidPassword])
  | passwd :: rest =>
      match act passwd with
      | Some a => (Returned a, rest, [])
      | None =>
          let '(o, rest', tr) := act_with_passwd_loop act rest in
          (o, rest', Stdout InvalidPassword :: tr)
      end
  end.

Definition act_with_passwd {A} (act : string -> option A) : M S A := fun w =>
  let '(o, rest, tr) := act_with_passwd_loop act (stdin w) in
  (o, MkWorld (node w) (sched w) rest, tr).

Definition passwd : M S string :=
  c <- self ;;
  act_with_passwd (check_passwd (usr c)).

(** [trans.sign] changes the transaction object in place: the result is the
    object as the caller sees it afterwards. *)
Definition make_trans (trans : Transaction.t) : M S Transaction.t :=
  ans <- input ;;
  if bool_decide (ans ∈ ["y"; "Y"]) then
    c <- self ;;
    pw <- passwd ;;
    match trans_sign (usr c) pw trans with
    | None => raise AuthError
    | Some trans =>
        asyncio_run (net_send {["trans" := VTrans trans]}) ;;;
        emit (Stdout (ShowTrans trans)) ;;;
        ret trans
    end
  else ret trans.

Definition update_self_peer : M S unit :=
  c <- self ;;
  set_net (Net.update_peer (Peer.Build (Net.ipv6 (net c)) 10000) (net c)) ;;;
  c <- self ;;
  asyncio_run (net_send (Net.to_dict (net c))) ;;;
  asyncio_run (_dict_to_disk TheNet "peers.json").

End methods.
End CLI.

(** ** class CoreServer(CLI) *)
Module CoreServer.
Section methods.
Context {core : Collaborators} {S : Type} {st : CLI.State S}.

(** [Peer(peer['ipv6'], peer['port'])] *)
Definition peer_of_dict (peer : PeerDict.t) : Peer.t :=
  Peer.Build (PeerDict.ipv6 peer) (PeerDict.port peer).

(** [self.net.update_peers(peers)] on the node's registry. *)
Definition net_update_peers (peers : list Peer.t) : M S bool :=
  c <- CLI.self ;;
  let '(n, changed) := Net.update_peers peers (CLI.net c) in
  CLI.set_net n ;;;
  emit (UpdatePeers peers changed) ;;;
  ret changed.

(** [self.chain.check_block(block)] and [self.chain.add_block(block)] on the
    node's chain. *)
Definition chain_check_block (block : Block.t) : M S BlockCheck :=
  c <- CLI.self ;;
  let r := check_block (CLI.chain c) block in
  emit (CheckBlock block r) ;;;
  ret r.

Definition chain_add_block (block : Block.t) : M S bool :=
  c <- CLI.self ;;
  let '(bc, changed) := add_block (CLI.chain c) block in
  CLI.set_chain bc ;;;
  emit (AddBlock block changed) ;;;
  ret changed.

(** The comprehension over [peers_dict] fails on anything that is not a
    list of peer dictionaries. *)
Definition update_peers_hlr (peers_dict : Value) : M S unit :=
  match peers_dict with
  | VPeers l =>
      let peers := peer_of_dict <$> l in
      changed <- net_update_peers peers ;;
      when changed (
        emit (Stdout PeersUpdated) ;;;
        CLI.net_send {["peers" := peers_dict]} ;;;
        CLI._dict_to_disk TheNet "peers.json")
  | _ => raise TypeError
  end.

(** [from_dict(Block, block_dict)] *)
Definition block_from_dict (block_dict : Value) : M S Block.t :=
  match block_dict with
  | VBlock b => ret b
  | _ => raise DecodeError
  end.

Definition add_block_hlr (block_dict : Value) : M S unit :=
  block <- block_from_dict block_dict ;;
  r <- chain_check_block block ;;
  when (is_OK r) (
    CLI.net_send {["block" := VBlock block]} ;;;
    ret tt) ;;;
  changed <- chain_add_block block ;;
  when changed (CLI._dict_to_disk TheChain "blockchain.json").

Definition hlr_map : list (string * (Value -> M S unit)) :=
  [("peers", update_peers_hlr); ("block", add_block_hlr)].

(** The body of the loop over [hlr_map.items()]. *)
Definition dispatch_entry (data : Msg) (item : string * (Value -> M S unit))
  : M S unit :=
  let '(key, hlr) := item in
  if truthy (data !! key) then
    v <- getitem data key ;;
    hlr v
  else ret tt.

Definition serve_dispatch (data : Msg) : M S unit :=
  for_each hlr_map (dispatch_entry data).

End methods.
End CoreServer.

(** ** class MiningServer(CoreServer) *)
Module MiningServer.

Record t := Build {
  cli : CLI.t;
  block : option Block.t;
  trans_cache : list Transaction.t
}.

#[global] Instance state : CLI.State t :=
  {| CLI.cli_of := cli;
     CLI.with_cli := fun c s => Build c (block s) (trans_cache s);
     CLI.cli_of_with_cli := fun _ _ => eq_refl |}.

Section methods.
Context {core : Collaborators}.

Definition cache_trans (trans : Transaction.t) : M t unit :=
  let h12 := String.substring 0%nat 12%nat (trans_dict_hash trans) in
  emit (Stdout (WillBeInNextBlock h12)) ;;;
  s <- get ;;
  put (Build (cli s) (block s) (trans_cache s ++ [trans])).

Definition make_trans (trans : Transaction.t) : M t Transaction.t :=
  trans <- CLI.make_trans trans ;;
  cache_trans trans ;;;
  ret trans.

(** [while self.chain.get_block_confirms(self.block): await asyncio.sleep(0)]:
    every turn of the loop lets the other tasks run once; when no other task
    is left to change the chain, the loop spins for ever. *)
Fixpoint wait_confirms (pending : list (t -> t)) (s : t)
  : Outcome unit * t * list (t -> t) :=
  if Z.eqb (get_block_confirms (CLI.chain (cli s)) (block s)) 0
  then (Returned tt, s, pending)
  else
    match pending with
    | [] => (Diverged, s, [])
    | f :: rest => wait_confirms rest (f s)
    end.

Definition update_block : M t unit :=
  (* wait until block will be accepted or rejected *)
  (fun w =>
     let '(o, s, rest) := wait_confirms (sched w) (node w) in
     (o, MkWorld s rest (stdin w), [])) ;;;
  (* generate new block *)
  s <- get ;;
  let c := cli s in
  let new := Blockchain.new_block (CLI.chain c) (User.pub (CLI.usr c)) in
  (* clear transactions queue *)
  let new := fold_left (Blockchain.add_trans (CLI.chain c)) (trans_cache s) new in
  put (Build c (Some new) []).

(** [from_dict(Transaction, trans_dict)] *)
Definition trans_from_dict (trans_dict : Value) : M t Transaction.t :=
  match trans_dict with
  | VTrans tx => ret tx
  | _ => raise DecodeError
  end.

Definition add_trans_hlr (trans_dict : Value) : M t unit :=
  trans <- trans_from_dict trans_dict ;;
  cache_trans trans.

Definition serve_dispatch (data : Msg) : M t unit :=
  CoreServer.serve_dispatch data ;;;
  (* add trans *)
  if truthy (data !! "trans") then
    v <- getitem data "trans" ;;
    add_trans_hlr v
  else ret tt.

(** The part of the loop body of [serve_mining] under [# mining]: the miner
    works on the block object of [self.block] itself.  Only [update_block]
    assigns [self.block], and it runs in this task: the solved block is read
    once and handed to the rest of the turn. *)
Definition mining : M t Block.t :=
  s <- get ;;
  match block s with
  | None => raise TypeError
  | Some b =>
      let '(solved, n) := miner_work b in
      yields n ;;;
      s <- get ;;
      put (Build (cli s) (Some solved) (trans_cache s)) ;;;
      let h12 := String.substring 0%nat 12%nat (block_dict_hash solved) in
      emit (Stdout (BlockSolved h12 (reward (CLI.chain (cli s))))) ;;;
      ret solved
  end.

(** The transaction built under [# check and send] for the block [b] of
    [self.block] and the chain [c] of [self.chain]. *)
Definition reward_trans (c : Blockchain.t) (b : Block.t) : Transaction.t :=
  let reward_act := Reward (reward c) (block_dict_hash b) in
  Transaction.Build None (Pow.solver (Block.pow b)) reward_act None None.

(** The part under [# check and send]. *)
Definition check_and_send (b : Block.t) : M t unit :=
  r <- CoreServer.chain_check_block b ;;
  when (is_OK r) (
    s <- get ;;
    let reward_trans := reward_trans (CLI.chain (cli s)) b in
    cache_trans reward_trans ;;;
    CLI.net_send {["trans" := VTrans reward_trans]} ;;;
    CLI.net_send {["block" := VBlock b]} ;;;
    ret tt) ;;;
  changed <- CoreServer.chain_add_block b ;;
  when changed (CLI._dict_to_disk TheChain "blockchain.json").

(** One turn of the [while True] of [serve_mining]. *)
Definition serve_mining_turn : M t unit :=
  update_block ;;;
  b <- mining ;;
  check_and_send b.

(** The first [turns] turns of [serve_mining]. *)
Fixpoint serve_mining (turns : nat) : M t unit :=
  match turns with
  | O => ret tt
  | Datatypes.S k => serve_mining_turn ;;; serve_mining k
  end.

End methods.
End MiningServer.

(** ** __main__: [--trans to act args] *)
Module Main.
Section script.
Context {core : Collaborators} {S : Type} {st : CLI.State S}.

(** The dictionary of constructors indexed by [args.trans[1]]. *)
Definition make_act (kind act_args : string) : M S Action :=
  if String.eqb kind "ivc" then
    match py_int act_args with
    | Some n => ret (Invoice n)
    | None => raise ValueError
    end
  else if String.eqb kind "pay" then
    match py_int act_args with
    | Some n => ret (Payment n)
    | None => raise ValueError
    end
  else if String.eqb kind "msg" then ret (Message act_args)
  else raise KeyError.

(** The transaction built from [--trans to act args]. *)
Definition new_trans (to kind act_args : string) : M S Transaction.t :=
  act <- make_act kind act_args ;;
  c <- CLI.self ;;
  ret (Transaction.Build (Some (User.pub (CLI.usr c))) to act None None).

(** [serv.make_trans] is the method of the class of [serv]. *)
Definition trans_command (serv_make_trans : Transaction.t -> M S Transaction.t)
  (to kind act_args : string) : M S Transaction.t :=
  trans <- new_trans to kind act_args ;;
  serv_make_trans trans.

End script.
End Main.

(** ** Observations on a run *)

Definition outcome {S A} (r : Outcome A * World S * list Event) : Outcome A := r.1.1.
Definition world_after {S A} (r : Outcome A * World S * list Event) : World S := r.1.2.
Definition trace {S A} (r : Outcome A * World S * list Event) : list Event := r.2.

Definition sent (tr : list Event) : list Msg :=
  omap (fun e => match e with Send m => Some m | _ => None end) tr.

Definition written (tr : list Event) : list string :=
  omap (fun e => match e with ToDisk path _ => Some path | _ => None end) tr.

Definition checked (tr : list Event) : list (Block.t * BlockCheck) :=
  omap (fun e => match e with CheckBlock b r => Some (b, r) | _ => None end) tr.

Definition appended (tr : list Event) : list (Block.t * bool) :=
  omap (fun e => match e with AddBlock b c => Some (b, c) | _ => None end) tr.

Definition peer_updates (tr : list Event) : list (list Peer.t * bool) :=
  omap (fun e => match e with UpdatePeers l c => Some (l, c) | _ => None end) tr.

(** Every message a coroutine sends satisfies [P], whatever the world it
    runs in. *)
Definition sends_only {S A} (P : Msg -> Prop) (m : M S A) : Prop :=
  forall w, Forall P (sent (trace (m w))).

(** The values under the three keys have the shape their handlers decode
    (or are falsy, and no handler sees them). *)
Definition shape_ok (data : Msg) (key : string) (good : Value -> bool) : bool :=
  match data !! key with
  | Some v => good v || negb (truthy (Some v))
  | None => true
  end.

Definition well_typed (data : Msg) : bool :=
  shape_ok data "peers" (fun v => match v with VPeers _ => true | _ => false end) &&
  shape_ok data "block" (fun v => match v with VBlock _ => true | _ => false end) &&
  shape_ok data "trans" (fun v => match v with VTrans _ => true | _ => false end).

(** The other tasks never take a transaction out of the cache (the only
    statement that empties it is in [update_block], which runs in the
    mining task itself). *)
Definition keeps_cache (f : MiningServer.t -> MiningServer.t) : Prop :=
  forall s tx, tx ∈ MiningServer.trans_cache s -> tx ∈ MiningServer.trans_cache (f s).

Definition net_of {S} {st : CLI.State S} (w : World S) : Net.t :=
  CLI.net (CLI.cli_of (node w)).
Definition chain_of {S} {st : CLI.State S} (w : World S) : Blockchain.t :=
  CLI.chain (CLI.cli_of (node w)).

(** The two turns of the loop of [CoreServer.serve_dispatch]. *)
Definition peers_entry {core : Collaborators} {S} {st : CLI.State S}
  (data : Msg) : M S unit :=
  CoreServer.dispatch_entry data ("peers", CoreServer.update_peers_hlr).
Definition block_entry {core : Collaborators} {S} {st : CLI.State S}
  (data : Msg) : M S unit :=
  CoreServer.dispatch_entry data ("block", CoreServer.add_block_hlr).

Ltac unfold_node :=
  unfold CoreServer.add_block_hlr, CoreServer.update_peers_hlr,
    CoreServer.block_from_dict, CoreServer.net_update_peers,
    CoreServer.chain_check_block, CoreServer.chain_add_block,
    MiningServer.check_and_send, MiningServer.cache_trans,
    MiningServer.add_trans_hlr, MiningServer.trans_from_dict,
    CLI.net_send, CLI._dict_to_disk, CLI.set_chain, CLI.set_net, CLI.self,
    getitem, when, bind, get, put, emit, ret, raise, yield,
    outcome, world_after, trace in *.

Abbreviation cache w := (MiningServer.trans_cache (node w)).

(** The [peers] entry of a message taken into account: the membership
    becomes the candidates when their set differs and stays otherwise, and
    the list is sent on and saved exactly when it changed. *)
Definition peers_message_applied {core : Collaborators} {S} {st : CLI.State S}
  (w : World S) (data : Msg) (l : list PeerDict.t) : Prop :=
  let candidates := CoreServer.peer_of_dict <$> l in
  let current := Net.peers (net_of w) in
  let differs := negb (Net.same_members candidates current) in
  let res := CoreServer.serve_dispatch data w in
  peer_updates (trace res) = [(candidates, differs)] /\
  ({["peers" := VPeers l]} ∈ sent (trace res) <-> differs = true) /\
  ("peers.json" ∈ written (trace res) <-> differs = true) /\
  (sched w = [] ->
   Net.peers (net_of (world_after res)) = if differs then candidates else current).

(** The entry left alone. *)
Definition peers_message_ignored {core : Collaborators} {S} {st : CLI.State S}
  (w : World S) (data : Msg) (l : list PeerDict.t) : Prop :=
  let res := CoreServer.serve_dispatch data w in
  peer_updates (trace res) = [] /\
  ({["peers" := VPeers l]} ∉ sent (trace res)) /\
  ("peers.json" ∉ written (trace res)) /\
  (sched w = [] -> Net.peers (net_of (world_after res)) = Net.peers (net_of w)).

(** The same collaborators on a network that delivers as [d] says. *)
Definition with_delivered (core : Collaborators) (d : Msg -> Peer.t -> bool)
  : Collaborators :=
  {| check_block := check_block; add_block := add_block;
     get_block_confirms := get_block_confirms; reward := reward;
     block_dict_hash := block_dict_hash; trans_dict_hash := trans_dict_hash;
     check_passwd := check_passwd; trans_sign := trans_sign;
     miner_work := miner_work; delivered := d; py_int := py_int |}.

(** ** A small chain store, for running the node on concrete inputs *)
Module Sample.

Definition dict_hash_of (b : Block.t) : Digest :=
  match Pow.nonce (Block.pow b) with
  | Some n => "block-" +:+ pretty n
  | None => "unsolved"
  end.

Definition check (c : Blockchain.t) (b : Block.t) : BlockCheck :=
  match Pow.nonce (Block.pow b) with
  | None => Rejected BadProofOfWork
  | Some _ =>
      if bool_decide (is_Some (Blockchain.blocks c !! dict_hash_of b))
      then Rejected DuplicateBlock
      else if bool_decide (Block.prev b = Blockchain.hash c) then OK
      else Rejected UnknownPrevious
  end.

Definition add (c : Blockchain.t) (b : Block.t) : Blockchain.t * bool :=
  if is_OK (check c b)
  then (Blockchain.Build (Blockchain.ver c)
          (<[dict_hash_of b := b]> (Blockchain.blocks c))
          (Some (dict_hash_of b)), true)
  else (c, false).

(** Number of blocks of the store that name [b] as their predecessor. *)
Definition confirms (c : Blockchain.t) (b : option Block.t) : Z :=
  match b with
  | None => 0
  | Some b =>
      Z.of_nat (length (filter
        (fun kb => Block.prev kb.2 = Some (dict_hash_of b))
        (map_to_list (Blockchain.blocks c))))
  end.

Definition solve (b : Block.t) : Block.t * nat :=
  (Block.Build (Block.prev b) (Block.trans b)
     (Pow.Build (Some (Z.of_nat (length (Block.trans b)))) (Pow.solver (Block.pow b)))
     (Block.hash b), 1%nat).

Definition decimal (s : string) : option Z :=
  if String.eqb s "7" then Some 7 else if String.eqb s "25" then Some 25 else None.

Definition collaborators : Collaborators := {|
  check_block := check;
  add_block := add;
  get_block_confirms := confirms;
  reward := fun _ => 50;
  block_dict_hash := dict_hash_of;
  trans_dict_hash := fun tx => "tx-to-" +:+ Transaction.to_adr tx;
  check_passwd := fun u p => if String.eqb p (User.priv u) then Some p else None;
  trans_sign := fun u p tx =>
    if String.eqb p (User.priv u)
    then Some (Transaction.Build (Transaction.from_adr tx) (Transaction.to_adr tx)
                 (Transaction.act tx) (Some "h") (Some ("signed-by-" +:+ User.pub u)))
    else None;
  miner_work := solve;
  delivered := fun _ p => Z.eqb (Peer.port p) 10000;
  py_int := decimal
|}.

Definition alice : User.t := User.Build "alice-pub" "secret".
Definition peer1 : Peer.t := Peer.Build "2002:c257:6f39::1" 10000.
Definition peer2 : Peer.t := Peer.Build "2002:c257:65d4::1" 10000.

Definition net0 : Net.t := CLI.net_maker "::1".
Definition chain0 : Blockchain.t := CLI.chain_maker.
Definition cli0 : CLI.t := CLI.Build net0 alice chain0.
Definition miner0 : MiningServer.t := MiningServer.Build cli0 None [].

Definition pay7 : Transaction.t :=
  Transaction.Build (Some "bob-pub") "carol-pub" (Payment 7) (Some "h7") (Some "sig7").

Definition b1 : Block.t := Block.Build None [] (Pow.Build (Some 0) "alice-pub") None.
Definition b2 : Block.t :=
  Block.Build (Some "block-0") [] (Pow.Build (Some 1) "bob-pub") None.
Definition chain1 : Blockchain.t := (add chain0 b1).1.
Definition chain2 : Blockchain.t := (add chain1 b2).1.

Definition core_world : World CLI.t := MkWorld cli0 [] [].
Definition miner_world : World MiningServer.t := MkWorld miner0 [] [].

(** A miner whose last block [b1] is the head of its chain, and one whose
    last block [b1] has [b2] on top of it. *)
Definition unconfirmed : MiningServer.t :=
  MiningServer.Build (CLI.Build net0 alice chain1) (Some b1) [pay7].
Definition confirmed : MiningServer.t :=
  MiningServer.Build (CLI.Build net0 alice chain2) (Some b1) [pay7].

End Sample.

(** ** The console helpers of [CLI] (lines 64-99) *)
Module Console.

Definition mismatch : string := "Passwords mismatch, please, try again.".
Definition no_user : string := "No user presented, register new one.".

(** [gen_passwd]: two lines are read per turn; the loop ends on two equal
    lines.  Only [KeyboardInterrupt] is caught: at the end of the input the
    [EOFError] of [getpass] leaves the function.  The result lists what was
    printed. *)
Fixpoint gen_passwd (typed : list string)
  : Outcome string * list string * list string :=
  match typed with
  | passwd0 :: passwd1 :: rest =>
      if String.eqb passwd0 passwd1 then (Returned passwd0, rest, [])
      else
        let '(o, rest', out) := gen_passwd rest in
        (o, rest', mismatch :: out)
  | _ => (Raised EOFError, [], [])
  end.

(** [usr_reg], for the [User.create] of [core]. *)
Definition usr_reg (create : string -> User.t) (typed : list string)
  : Outcome User.t * list string * list string :=
  let '(o, rest, out) := gen_passwd typed in
  let usr :=
    match o with
    | Returned passwd => Returned (create passwd)
    | Raised e => Raised e
    | Diverged => Diverged
    end in
  (usr, rest, no_user :: out).

End Console.

(** ** The files of the node *)

(** The files, by path, and the files after the writes of a trace. *)
Abbreviation Disk := (gmap string Persisted).

Definition replay (tr : list Event) (disk : Disk) : Disk :=
  fold_left
    (fun d e => match e with ToDisk path obj => <[path := obj]> d | _ => d end)
    tr disk.

(** ** Start-up ([CLI], lines 21-62): [usr_init] apart, whose file is
    read and made by [core.User]. *)
Module Startup.
Section init.
Context {core : Collaborators} {S : Type} {st : CLI.State S}.

(** [_dict_to_disk] for an object that is not an attribute of the node
    yet. *)
Definition dict_to_disk_obj (obj : Persisted) (obj_path : string) : M S unit :=
  yield ;;;
  emit (ToDisk obj_path obj) ;;;
  yield ;;;
  yield.

(** [disk] is the file system when the function is called: an existing
    file is read and decoded, a missing one is made and written. *)
Definition _init_ser_obj {A} (disk : Disk) (obj_path : string)
  (obj_reader : Persisted -> option A) (obj_maker : unit -> A)
  (to_dict : A -> Persisted) : M S A :=
  match disk !! obj_path with
  | Some d =>
      match obj_reader d with
      | Some obj => ret obj
      | None => raise DecodeError
      end
  | None =>
      let obj := obj_maker tt in
      asyncio_run (dict_to_disk_obj (to_dict obj) obj_path) ;;;
      ret obj
  end.

(** [from_dict(Net, d)] and [from_dict(Blockchain, d)] *)
Definition net_reader (d : Persisted) : option Net.t :=
  match d with PNet n => Some n | PChain _ => None end.

Definition chain_reader (d : Persisted) : option Blockchain.t :=
  match d with PChain c => Some c | PNet _ => None end.

(** [ipv6] is the address of the node, which a new [Net] knows. *)
Definition net_init (disk : Disk) (ipv6 peers_path : string) : M S unit :=
  net <- _init_ser_obj disk peers_path net_reader
           (fun _ => CLI.net_maker ipv6) PNet ;;
  CLI.set_net net ;;;
  CLI.update_self_peer.

Definition chain_init (disk : Disk) (chain_path : string) : M S unit :=
  (* FIXME: fetch blockchain from another node *)
  chain <- _init_ser_obj disk chain_path chain_reader
             (fun _ => CLI.chain_maker) PChain ;;
  CLI.set_chain chain.

End init.
End Startup.

(** ** A transaction of the sample user *)
Module Scenario.

(** The transaction of [--trans bob-pub pay 7], and the same once the sample
    user has signed it. *)
Definition draft : Transaction.t :=
  Transaction.Build (Some "alice-pub") "bob-pub" (Payment 7) None None.

Definition signed_draft : Transaction.t :=
  Transaction.Build (Some "alice-pub") "bob-pub" (Payment 7) (Some "h")
    (Some "signed-by-alice-pub").

End Scenario.

(** ** Further observations *)

(** The lines typed in answer to the two prompts of [gen_passwd], turn by
    turn, and a turn whose two lines differ. *)
Definition lines_of (pairs : list (string * string)) : list string :=
  pairs ≫= (fun pair => [pair.1; pair.2]).

Definition mismatched (pair : string * string) : Prop := pair.1 <> pair.2.

(** Every event of a coroutine satisfies [Q], whatever the world. *)
Definition emits_only {S A} (Q : Event -> Prop) (m : M S A) : Prop :=
  forall w, Forall Q (trace (m w)).

(** A write goes to one of the two file names of the serving code. *)
Definition node_file (e : Event) : Prop :=
  match e with
  | ToDisk path _ => path = "peers.json" \/ path = "blockchain.json"
  | _ => True
  end.

(** The message with the entry of [key] alone. *)
Definition only (key : string) (data : Msg) : Msg :=
  match data !! key with
  | Some v => {[key := v]}
  | None => ∅
  end.

(** The messages of a mining task come in pairs: the reward of a block,
    then the block. *)
Inductive paired {core : Collaborators} : list Msg -> Prop :=
| paired_nil : paired []
| paired_cons c b rest :
    paired rest ->
    paired ({["trans" := VTrans (MiningServer.reward_trans c b)]}
              :: {["block" := VBlock b]} :: rest).

(** What a serving miner does, one item per message received and per run
    of turns of the mining loop. *)
Inductive Activity := Inbound (data : Msg) | Mining (turns : nat).

Definition perform {core : Collaborators} (a : Activity) : M MiningServer.t unit :=
  match a with
  | Inbound data => MiningServer.serve_dispatch data
  | Mining turns => MiningServer.serve_mining turns
  end.

(** * Properties *)

(** ** The monad *)
Section monad_facts.
Context {S : Type}.

Lemma bind_returned {A B} (m : M S A) (k : A -> M S B) w a w1 tr1 :
  m w = (Returned a, w1, tr1) ->
  bind m k w = (outcome (k a w1), world_after (k a w1), tr1 ++ trace (k a w1)).
Proof.
  intros E. unfold bind, outcome, world_after, trace. rewrite E.
  by destruct (k a w1) as [[o w2] tr2].
Qed.

Lemma bind_ret_l {A B} (a : A) (k : A -> M S B) w : bind (ret a) k w = k a w.
Proof. unfold bind, ret. by destruct (k a w) as [[o w2] tr2]. Qed.

Lemma bind_ret_tt (m : M S unit) w : bind m (fun _ => ret tt) w = m w.
Proof.
  unfold bind, ret. destruct (m w) as [[[[]|e|] w1] tr1]; by rewrite ?app_nil_r.
Qed.

End monad_facts.

(** ** Messages *)

Lemma singleton_msg_inj (k1 k2 : string) (v1 v2 : Value) :
  ({[k1 := v1]} : Msg) = {[k2 := v2]} -> k1 = k2 /\ v1 = v2.
Proof.
  intros E. destruct (decide (k1 = k2)) as [->|Hne].
  - split; [done|]. apply (f_equal (fun m : Msg => m !! k2)) in E.
    rewrite !lookup_singleton_eq in E. congruence.
  - apply (f_equal (fun m : Msg => m !! k1)) in E.
    rewrite lookup_singleton_eq, lookup_singleton_ne in E by done. discriminate.
Qed.

Lemma one_populated_peers (l : list PeerDict.t) :
  l <> [] -> one_populated_key {["peers" := VPeers l]} = true.
Proof. destruct l; [done|]. intros _. reflexivity. Qed.

Lemma one_populated_block (b : Block.t) :
  one_populated_key {["block" := VBlock b]} = true.
Proof. reflexivity. Qed.

Lemma one_populated_trans (tx : Transaction.t) :
  one_populated_key {["trans" := VTrans tx]} = true.
Proof. reflexivity. Qed.

Lemma to_dict_shape (n : Net.t) :
  dom (Net.to_dict n) = ({["hash"; "peers"]} : gset string) /\
  Net.to_dict n !! "hash" = Some (from_option VStr VNone (Net.hash n)).
Proof.
  unfold Net.to_dict. split.
  - by rewrite dom_insert_L, dom_singleton_L.
  - apply lookup_insert_eq.
Qed.

Lemma one_populated_net (n : Net.t) :
  Net.peers n <> [] -> one_populated_key (Net.to_dict n) = true.
Proof.
  unfold Net.to_dict. destruct (Net.peers n); [done|]. intros _.
  destruct (Net.hash n); reflexivity.
Qed.

(** ** What a coroutine sends *)

Section sends.
Context {S : Type} (P : Msg -> Prop).

Lemma sends_only_bind {A B} (m : M S A) (k : A -> M S B) :
  sends_only P m -> (forall a, sends_only P (k a)) -> sends_only P (bind m k).
Proof.
  intros Hm Hk w. specialize (Hm w). unfold bind.
  destruct (m w) as [[[a|e|] w1] tr1]; cbn in *; try done.
  specialize (Hk a w1). destruct (k a w1) as [[o w2] tr2]; cbn in *.
  unfold sent in *. rewrite omap_app. by apply Forall_app.
Qed.

Lemma sends_only_silent {A} (m : M S A) :
  (forall w, sent (trace (m w)) = []) -> sends_only P m.
Proof. intros Hm w. rewrite Hm. constructor. Qed.

Lemma sends_only_ret {A} (a : A) : sends_only P (ret (S:=S) a).
Proof. by apply sends_only_silent. Qed.

Lemma sends_only_raise {A} e : sends_only P (raise (S:=S) (A:=A) e).
Proof. by apply sends_only_silent. Qed.

Lemma sends_only_get : sends_only P (get (S:=S)).
Proof. by apply sends_only_silent. Qed.

Lemma sends_only_put s : sends_only P (put (S:=S) s).
Proof. by apply sends_only_silent. Qed.

Lemma sends_only_yield : sends_only P (yield (S:=S)).
Proof. by apply sends_only_silent. Qed.

Lemma sends_only_input : sends_only P (input (S:=S)).
Proof. apply sends_only_silent. intros w. unfold input. by destruct (stdin w). Qed.

Lemma sends_only_emit e :
  match e with Send m => P m | _ => True end -> sends_only P (emit (S:=S) e).
Proof.
  intros He w. destruct e; cbn; try constructor; done.
Qed.

Lemma sends_only_when c (m : M S unit) : sends_only P m -> sends_only P (when c m).
Proof. destruct c; [done|]. intros _. apply sends_only_ret. Qed.

Lemma sends_only_yields n : sends_only P (yields (S:=S) n).
Proof.
  induction n as [|n IH]; [apply sends_only_ret|].
  apply sends_only_bind; [apply sends_only_yield|done].
Qed.

Lemma sends_only_for_each {A} (l : list A) (body : A -> M S unit) :
  (forall x, sends_only P (body x)) -> sends_only P (for_each l body).
Proof.
  intros Hb. induction l as [|x l IH]; [apply sends_only_ret|].
  apply sends_only_bind; [apply Hb|done].
Qed.

Lemma sends_only_asyncio_run {A} (m : M S A) :
  sends_only P m -> sends_only P (asyncio_run m).
Proof.
  intros Hm w. unfold asyncio_run.
  specialize (Hm (MkWorld (node w) [] (stdin w))).
  by destruct (m _) as [[o w1] tr].
Qed.

End sends.

Ltac sends_step :=
  first
    [ apply sends_only_ret | apply sends_only_raise | apply sends_only_get
    | apply sends_only_put | apply sends_only_yield | apply sends_only_input
    | apply sends_only_bind; [|intros ?]
    | apply sends_only_when
    | apply sends_only_asyncio_run
    | apply sends_only_yields
    | apply sends_only_for_each; intros ?
    | apply sends_only_emit; cbn ].

Section cli_sends.
Context {core : Collaborators} {S : Type} {st : CLI.State S} (P : Msg -> Prop).

Lemma sends_only_self : sends_only P (CLI.self (S:=S)).
Proof. unfold CLI.self. repeat sends_step. Qed.

Lemma sends_only_net_send msg : P msg -> sends_only P (CLI.net_send (S:=S) msg).
Proof. intros Hm. unfold CLI.net_send. repeat first [apply sends_only_self | sends_step]; done. Qed.

Lemma sends_only_dict_to_disk obj path : sends_only P (CLI._dict_to_disk (S:=S) obj path).
Proof. unfold CLI._dict_to_disk. repeat first [apply sends_only_self | sends_step]; done. Qed.

Lemma sends_only_act_with_passwd {A} (act : string -> option A) :
  sends_only P (CLI.act_with_passwd (S:=S) act).
Proof.
  apply sends_only_silent. intros w. unfold CLI.act_with_passwd.
  generalize (stdin w) as typed. induction typed as [|p typed IH]; [done|].
  cbn. destruct (act p); [done|].
  destruct (CLI.act_with_passwd_loop act typed) as [[o rest] tr]. cbn in *. done.
Qed.

Lemma sends_only_make_trans trans :
  (forall tx, P {["trans" := VTrans tx]}) -> sends_only P (CLI.make_trans (S:=S) trans).
Proof.
  intros HP. unfold CLI.make_trans, CLI.passwd.
  sends_step; [sends_step|]. case_bool_decide; [|sends_step].
  sends_step; [apply sends_only_self|]. sends_step.
  { sends_step; [apply sends_only_self|]. apply sends_only_act_with_passwd. }
  destruct (trans_sign _ _ _); [|sends_step].
  repeat first [apply sends_only_net_send | sends_step]; done.
Qed.

End cli_sends.

(** ** CoreServer *)
Section core.
Context {core : Collaborators} {S : Type} {st : CLI.State S}.

Lemma update_peers_hlr_run (w : World S) (l : list PeerDict.t) :
  let candidates := CoreServer.peer_of_dict <$> l in
  let differs := negb (Net.same_members candidates (Net.peers (net_of w))) in
  let res := CoreServer.update_peers_hlr (VPeers l) w in
  outcome res = Returned tt /\
  (exists obj, trace res = UpdatePeers candidates differs ::
     (if differs
      then [Stdout PeersUpdated; Send {["peers" := VPeers l]}; ToDisk "peers.json" obj]
      else [])) /\
  (sched w = [] ->
   sched (world_after res) = [] /\
   chain_of (world_after res) = chain_of w /\
   Net.peers (net_of (world_after res)) =
     if differs then candidates else Net.peers (net_of w)).
Proof.
  unfold net_of, chain_of, Net.update_peers. unfold_node. cbn. unfold Net.update_peers.
  destruct (Net.same_members _ _); cbn.
  all: split; [done|]; split;
    [first [by eexists | by exists (PNet (net_of w))]|];
    intros ->; cbn; by rewrite ?CLI.cli_of_with_cli.
Qed.

Lemma add_block_hlr_run (w : World S) (b : Block.t) :
  let r := check_block (chain_of w) b in
  let w1 := if is_OK r then world_after (yield w) else w in
  let changed := (add_block (chain_of w1) b).2 in
  let res := CoreServer.add_block_hlr (VBlock b) w in
  outcome res = Returned tt /\
  (exists obj, trace res = CheckBlock b r ::
     (if is_OK r then [Send {["block" := VBlock b]}] else []) ++
     AddBlock b changed ::
     (if changed then [ToDisk "blockchain.json" obj] else [])) /\
  (sched w = [] ->
   sched (world_after res) = [] /\
   net_of (world_after res) = net_of w /\
   chain_of (world_after res) = (add_block (chain_of w) b).1).
Proof.
  unfold net_of, chain_of. unfold_node. cbn.
  destruct (check_block _ _); cbn;
    destruct (add_block _ _) as [bc [|]] eqn:E; cbn;
    (split; [done|]);
    (split; [first [by eexists | by exists (PNet (net_of w))]|]);
    intros Hq; rewrite Hq in *; cbn in *;
    rewrite ?CLI.cli_of_with_cli, ?E; done.
Qed.

Lemma serve_dispatch_eq (data : Msg) (w : World S) :
  CoreServer.serve_dispatch data w =
  bind (peers_entry data) (fun _ => block_entry data) w.
Proof.
  unfold CoreServer.serve_dispatch, CoreServer.hlr_map, for_each.
  fold (peers_entry data). fold (block_entry data).
  unfold bind at 1. unfold bind at 2.
  destruct (peers_entry data w) as [[[[]|e|] w1] tr1]; try done.
  by rewrite bind_ret_tt.
Qed.

Lemma peers_entry_cases (data : Msg) (w : World S) :
  (populated data "peers" = false /\ peers_entry data w = (Returned tt, w, [])) \/
  (exists l, data !! "peers" = Some (VPeers l) /\ l <> [] /\
     peers_entry data w = CoreServer.update_peers_hlr (VPeers l) w) \/
  (well_typed data = false /\ peers_entry data w = (Raised TypeError, w, [])).
Proof.
  unfold well_typed, shape_ok, populated, peers_entry, CoreServer.dispatch_entry, getitem.
  destruct (data !! "peers") as [[| s | [|p l] | b' | tx]|] eqn:Hp; cbn [truthy];
    try (left; split; reflexivity).
  - destruct (negb (String.eqb s EmptyString)); [|left; split; reflexivity].
    right; right. split; [done|]. apply (bind_ret_l (VStr s) CoreServer.update_peers_hlr).
  - right; left. exists (p :: l). split; [done|]. split; [done|].
    apply (bind_ret_l (VPeers (p :: l)) CoreServer.update_peers_hlr).
  - right; right. split; [done|]. apply (bind_ret_l (VBlock b') CoreServer.update_peers_hlr).
  - right; right. split; [done|]. apply (bind_ret_l (VTrans tx) CoreServer.update_peers_hlr).
Qed.

Lemma block_entry_cases (data : Msg) (w : World S) :
  (populated data "block" = false /\ block_entry data w = (Returned tt, w, [])) \/
  (exists b, data !! "block" = Some (VBlock b) /\
     block_entry data w = CoreServer.add_block_hlr (VBlock b) w) \/
  (well_typed data = false /\ block_entry data w = (Raised DecodeError, w, [])).
Proof.
  unfold well_typed, shape_ok, populated, block_entry, CoreServer.dispatch_entry, getitem.
  destruct (data !! "block") as [[| s | [|p l] | b' | tx]|] eqn:Hp; cbn [truthy];
    try (left; split; reflexivity).
  - destruct (negb (String.eqb s EmptyString)); [|left; split; reflexivity].
    right; right. split; [by rewrite andb_false_r|].
    apply (bind_ret_l (VStr s) CoreServer.add_block_hlr).
  - right; right. split; [by rewrite andb_false_r|].
    apply (bind_ret_l (VPeers (p :: l)) CoreServer.add_block_hlr).
  - right; left. exists b'. split; [done|].
    apply (bind_ret_l (VBlock b') CoreServer.add_block_hlr).
  - right; right. split; [by rewrite andb_false_r|].
    apply (bind_ret_l (VTrans tx) CoreServer.add_block_hlr).
Qed.

(** What each entry leaves in the trace, and in a node that no other task
    touches. *)
Lemma peers_entry_trace (data : Msg) (w : World S) :
  let res := peers_entry data w in
  (well_typed data = true -> outcome res = Returned tt) /\
  checked (trace res) = [] /\ appended (trace res) = [] /\
  (forall m, m ∈ sent (trace res) ->
     exists l, l <> [] /\ data !! "peers" = Some (VPeers l) /\ m = {["peers" := VPeers l]}) /\
  (forall p, p ∈ written (trace res) -> p = "peers.json") /\
  (sched w = [] -> sched (world_after res) = [] /\ chain_of (world_after res) = chain_of w).
Proof.
  destruct (peers_entry_cases data w) as [[_ ->]|[(l & Hl & Hne & ->)|[Hwt ->]]].
  - cbn. repeat split; try done; intros ? Hin; by apply elem_of_nil in Hin.
  - destruct (update_peers_hlr_run w l) as (Ho & [obj Htr] & Hq).
    cbn zeta in *. rewrite Ho, Htr. split; [done|].
    assert (Hq' : sched w = [] ->
      sched (world_after (CoreServer.update_peers_hlr (VPeers l) w)) = [] /\
      chain_of (world_after (CoreServer.update_peers_hlr (VPeers l) w)) = chain_of w)
      by (intros Hs; by apply Hq in Hs as (? & ? & ?)).
    clear Hq.
    destruct (negb _); cbn [checked appended sent written omap]; split_and!;
      try done; intros ? Hin.
    + apply list_elem_of_singleton in Hin as ->. eauto.
    + by apply list_elem_of_singleton in Hin as ->.
    + by apply elem_of_nil in Hin.
    + by apply elem_of_nil in Hin.
  - cbn. rewrite Hwt. repeat split; try done; intros ? Hin; by apply elem_of_nil in Hin.
Qed.

Lemma block_entry_trace (data : Msg) (w : World S) :
  let res := block_entry data w in
  peer_updates (trace res) = [] /\
  (forall m, m ∈ sent (trace res) ->
     exists b, data !! "block" = Some (VBlock b) /\ m = {["block" := VBlock b]}) /\
  (forall p, p ∈ written (trace res) -> p = "blockchain.json") /\
  (sched w = [] -> net_of (world_after res) = net_of w).
Proof.
  destruct (block_entry_cases data w) as [[_ ->]|[(b & Hb & ->)|[_ ->]]].
  - cbn. repeat split; try done; intros ? Hin; by apply elem_of_nil in Hin.
  - destruct (add_block_hlr_run w b) as (Ho & [obj Htr] & Hq).
    cbn zeta in *. rewrite Htr.
    assert (Hq' : sched w = [] ->
      net_of (world_after (CoreServer.add_block_hlr (VBlock b) w)) = net_of w)
      by (intros Hs; by apply Hq in Hs as (? & ? & ?)).
    clear Hq.
    destruct (is_OK _), (add_block _ _).2;
      cbn [peer_updates sent written omap app]; split_and!; try done; intros ? Hin;
      first [by apply elem_of_nil in Hin | apply list_elem_of_singleton in Hin as ->];
      eauto.
  - cbn. repeat split; try done; intros ? Hin; by apply elem_of_nil in Hin.
Qed.

Lemma block_entry_present (data : Msg) (b : Block.t) (w : World S) :
  data !! "block" = Some (VBlock b) ->
  block_entry data w = CoreServer.add_block_hlr (VBlock b) w.
Proof.
  intros Hb. unfold block_entry, CoreServer.dispatch_entry, getitem.
  rewrite Hb. cbn. apply (bind_ret_l (VBlock b) CoreServer.add_block_hlr).
Qed.

Lemma block_entry_absent (data : Msg) (w : World S) :
  populated data "block" = false -> block_entry data w = (Returned tt, w, []).
Proof.
  unfold populated, block_entry, CoreServer.dispatch_entry. by intros ->.
Qed.

Lemma peers_entry_present (data : Msg) (l : list PeerDict.t) (w : World S) :
  data !! "peers" = Some (VPeers l) -> l <> [] ->
  peers_entry data w = CoreServer.update_peers_hlr (VPeers l) w.
Proof.
  intros Hp Hl. unfold peers_entry, CoreServer.dispatch_entry, getitem.
  rewrite Hp. destruct l; [done|]. cbn [truthy length Nat.eqb negb].
  apply (bind_ret_l (VPeers _) CoreServer.update_peers_hlr).
Qed.

Lemma peers_entry_absent (data : Msg) (w : World S) :
  populated data "peers" = false -> peers_entry data w = (Returned tt, w, []).
Proof.
  unfold populated, peers_entry, CoreServer.dispatch_entry. by intros ->.
Qed.

End core.

Section core_more.
Context {core : Collaborators} {S : Type} {st : CLI.State S}.

Lemma serve_dispatch_returns (data : Msg) (w : World S) :
  well_typed data = true -> outcome (CoreServer.serve_dispatch data w) = Returned tt.
Proof.
  intros Hwt. rewrite serve_dispatch_eq.
  destruct (peers_entry_trace data w) as (Ho & _). specialize (Ho Hwt).
  destruct (peers_entry data w) as [[o0 w0] tr0] eqn:E. cbn in Ho. subst o0.
  rewrite (bind_returned _ _ _ _ _ _ E). cbn [outcome fst].
  destruct (block_entry_cases data w0) as [[_ ->]|[(b & Hb & ->)|[Hn _]]];
    [done| |congruence].
  by destruct (add_block_hlr_run w0 b) as (-> & _).
Qed.

End core_more.

Section sends_core.
Context {core : Collaborators} {S : Type} {st : CLI.State S} (P : Msg -> Prop).

Lemma sends_only_serve_dispatch (data : Msg) :
  (forall l, l <> [] -> P {["peers" := VPeers l]}) ->
  (forall b, P {["block" := VBlock b]}) ->
  sends_only P (CoreServer.serve_dispatch (S:=S) data).
Proof.
  intros Hp Hb w. rewrite serve_dispatch_eq.
  apply (sends_only_bind P (peers_entry data) (fun _ => block_entry data)).
  - intros w'. apply Forall_forall. intros m Hin.
    destruct (peers_entry_trace data w') as (_ & _ & _ & Hs & _).
    apply Hs in Hin as (l & Hl & _ & ->). by apply Hp.
  - intros _ w'. apply Forall_forall. intros m Hin.
    destruct (block_entry_trace data w') as (_ & Hs & _).
    apply Hs in Hin as (b & _ & ->). apply Hb.
Qed.

Lemma update_self_peer_sent (w : World S) :
  sent (trace (CLI.update_self_peer w)) =
  [Net.to_dict (Net.update_peer (Peer.Build (Net.ipv6 (net_of w)) 10000) (net_of w))].
Proof.
  unfold CLI.update_self_peer, net_of, asyncio_run. unfold_node. cbn.
  by rewrite !CLI.cli_of_with_cli.
Qed.

Lemma serve_dispatch_ignores_trans (data : Msg) (w : World S) :
  CoreServer.serve_dispatch (delete "trans" data) w = CoreServer.serve_dispatch data w.
Proof.
  rewrite !serve_dispatch_eq.
  unfold peers_entry, block_entry, CoreServer.dispatch_entry, getitem.
  by rewrite (lookup_delete_ne data "trans" "peers"),
    (lookup_delete_ne data "trans" "block").
Qed.

End sends_core.

(** ** __main__ *)
Section main_facts.
Context {core : Collaborators} {S : Type} {st : CLI.State S}.

Lemma new_trans_run (to kind act_args : string) (w : World S) :
  forall tx, outcome (Main.new_trans to kind act_args w) = Returned tx ->
  exists act,
    tx = Transaction.Build (Some (User.pub (CLI.usr (CLI.cli_of (node w))))) to act None None /\
    (forall a h, act <> Reward a h).
Proof.
  unfold Main.new_trans, Main.make_act. unfold_node. intros tx.
  destruct (kind =? "ivc")%string; [|destruct (kind =? "pay")%string;
    [|destruct (kind =? "msg")%string]];
    try destruct (py_int act_args); cbn; intros [=<-]; eauto.
Qed.

Lemma new_trans_returns (to kind act_args : string) (w : World S) :
  kind = "msg" \/ ((kind = "ivc" \/ kind = "pay") /\ is_Some (py_int act_args)) ->
  exists tx, outcome (Main.new_trans to kind act_args w) = Returned tx.
Proof.
  unfold Main.new_trans, Main.make_act. unfold_node.
  intros [->|[[->| ->] [n Hn]]]; cbn; rewrite ?Hn; cbn; eauto.
Qed.

End main_facts.

(** ** MiningServer *)
Section mining.
Context {core : Collaborators}.

Lemma cache_trans_run (tx : Transaction.t) (w : World MiningServer.t) :
  MiningServer.cache_trans tx w =
  (Returned tt,
   MkWorld (MiningServer.Build (MiningServer.cli (node w)) (MiningServer.block (node w))
              (cache w ++ [tx])) (sched w) (stdin w),
   [Stdout (WillBeInNextBlock (String.substring 0 12 (trans_dict_hash tx)))]).
Proof. reflexivity. Qed.

Lemma fold_add_trans (c : Blockchain.t) (l : list Transaction.t) (b : Block.t) :
  fold_left (Blockchain.add_trans c) l b =
  Block.Build (Block.prev b) (Block.trans b ++ l) (Block.pow b) (Block.hash b).
Proof.
  revert b. induction l as [|tx l IH]; intros b; cbn.
  - rewrite app_nil_r. by destruct b.
  - rewrite IH. cbn. by rewrite <- app_assoc.
Qed.

Lemma keeps_cache_hd (pending : list (MiningServer.t -> MiningServer.t)) :
  Forall keeps_cache pending -> keeps_cache (hd (fun s => s) pending).
Proof. destruct 1; [by intros ??|done]. Qed.

Lemma keeps_cache_tl (pending : list (MiningServer.t -> MiningServer.t)) :
  Forall keeps_cache pending -> Forall keeps_cache (tail pending).
Proof. by destruct 1. Qed.

Lemma wait_confirms_keeps pending s tx :
  Forall keeps_cache pending -> tx ∈ MiningServer.trans_cache s ->
  tx ∈ MiningServer.trans_cache (MiningServer.wait_confirms pending s).1.2 /\
  Forall keeps_cache (MiningServer.wait_confirms pending s).2.
Proof.
  intros Hk. revert s. induction Hk as [|f pending Hf Hk IH]; intros s Hin; cbn.
  - by destruct (Z.eqb _ _).
  - destruct (Z.eqb _ _); cbn; [by split; [|constructor]|]. apply IH, Hf, Hin.
Qed.

(** [update_block]: the state in which the wait ends decides everything. *)
Lemma update_block_run (w : World MiningServer.t) :
  let '(o, s, rest) := MiningServer.wait_confirms (sched w) (node w) in
  MiningServer.update_block w =
  match o with
  | Returned _ =>
      let c := MiningServer.cli s in
      (Returned tt,
       MkWorld (MiningServer.Build c
                  (Some (Block.Build (Blockchain.hash (CLI.chain c))
                           (MiningServer.trans_cache s)
                           (Pow.Build None (User.pub (CLI.usr c))) None))
                  []) rest (stdin w),
       [])
  | Raised e => (Raised e, MkWorld s rest (stdin w), [])
  | Diverged => (Diverged, MkWorld s rest (stdin w), [])
  end.
Proof.
  unfold MiningServer.update_block, bind at 1.
  destruct (MiningServer.wait_confirms _ _) as [[[[]|e|] s] rest]; try done.
  unfold bind, get, put. cbn. by rewrite fold_add_trans.
Qed.

Lemma wait_confirms_outcome pending s :
  let '(o, s', rest) := MiningServer.wait_confirms pending s in
  (o = Returned tt /\
   get_block_confirms (CLI.chain (MiningServer.cli s')) (MiningServer.block s') = 0) \/
  (o = Diverged /\ rest = [] /\
   get_block_confirms (CLI.chain (MiningServer.cli s')) (MiningServer.block s') <> 0).
Proof.
  revert s. induction pending as [|f pending IH]; intros s; cbn.
  - destruct (Z.eqb_spec (get_block_confirms (CLI.chain (MiningServer.cli s))
                (MiningServer.block s)) 0); [by left|by right].
  - destruct (Z.eqb_spec (get_block_confirms (CLI.chain (MiningServer.cli s))
                (MiningServer.block s)) 0); [by left|]. apply IH.
Qed.

Lemma check_and_send_run (w : World MiningServer.t) (b : Block.t) :
  let r := check_block (chain_of w) b in
  let rw := MiningServer.reward_trans (chain_of w) b in
  let gated :=
    bind (MiningServer.cache_trans rw) (fun _ =>
    bind (CLI.net_send {["trans" := VTrans rw]}) (fun _ =>
          CLI.net_send {["block" := VBlock b]})) in
  let w1 := if is_OK r then world_after (gated w) else w in
  let changed := (add_block (chain_of w1) b).2 in
  let res := MiningServer.check_and_send b w in
  outcome res = Returned tt /\
  (exists obj, trace res = CheckBlock b r ::
     (if is_OK r
      then [Stdout (WillBeInNextBlock (String.substring 0 12 (trans_dict_hash rw)));
            Send {["trans" := VTrans rw]}; Send {["block" := VBlock b]}]
      else []) ++
     AddBlock b changed ::
     (if changed then [ToDisk "blockchain.json" obj] else [])) /\
  (sched w = [] ->
   sched (world_after res) = [] /\
   cache (world_after res) = (if is_OK r then cache w ++ [rw] else cache w) /\
   chain_of (world_after res) = (add_block (chain_of w) b).1) /\
  (Forall keeps_cache (sched w) ->
   Forall keeps_cache (sched (world_after res)) /\
   (forall tx, tx ∈ (if is_OK r then cache w ++ [rw] else cache w) ->
      tx ∈ cache (world_after res))).
Proof.
  unfold MiningServer.reward_trans, chain_of. unfold_node. cbn.
  destruct (check_block _ _); cbn;
    destruct (add_block _ _) as [bc [|]] eqn:E; cbn;
    (split; [done|]);
    (split; [first [by eexists | by exists (PNet (net_of w))]|]).
  all: split; [intros Hq; rewrite Hq in *; cbn in *; rewrite ?E; done|].
  all: intros Hk; pose proof (keeps_cache_hd _ Hk) as K1;
    pose proof (keeps_cache_tl _ Hk) as Hk2;
    pose proof (keeps_cache_hd _ Hk2) as K2;
    pose proof (keeps_cache_tl _ Hk2) as Hk3;
    pose proof (keeps_cache_hd _ Hk3) as K3;
    pose proof (keeps_cache_tl _ Hk3) as Hk4;
    pose proof (keeps_cache_hd _ Hk4) as K4;
    pose proof (keeps_cache_tl _ Hk4) as Hk5;
    pose proof (keeps_cache_hd _ Hk5) as K5;
    pose proof (keeps_cache_tl _ Hk5) as Hk6.
  all: split; [done|]; intros tx Hin;
    repeat first [apply K5 | apply K4 | apply K3 | apply K2 | apply K1]; cbn; done.
Qed.

End mining.

Section mining_more.
Context {core : Collaborators}.

Lemma update_block_trace (w : World MiningServer.t) :
  trace (MiningServer.update_block w) = [].
Proof.
  pose proof (update_block_run w) as Hr.
  destruct (MiningServer.wait_confirms _ _) as [[[[]|e|] s] rest]; by rewrite Hr.
Qed.

Section sends.
Context (P : Msg -> Prop).

Lemma sends_only_cache_trans tx : sends_only P (MiningServer.cache_trans tx).
Proof. by apply sends_only_silent. Qed.

Lemma sends_only_update_block : sends_only P MiningServer.update_block.
Proof. apply sends_only_silent. intros w. by rewrite update_block_trace. Qed.

Lemma sends_only_mining : sends_only P MiningServer.mining.
Proof.
  unfold MiningServer.mining. sends_step; [sends_step|].
  destruct (MiningServer.block a); [|sends_step].
  destruct (miner_work t). repeat sends_step; done.
Qed.

Lemma sends_only_chain_check_block b :
  sends_only P (CoreServer.chain_check_block (S:=MiningServer.t) b).
Proof. by apply sends_only_silent. Qed.

Lemma sends_only_chain_add_block b :
  sends_only P (CoreServer.chain_add_block (S:=MiningServer.t) b).
Proof.
  apply sends_only_silent. intros w. unfold_node. cbn.
  by destruct (add_block _ _).
Qed.

Lemma sends_only_check_and_send b :
  (forall tx, P {["trans" := VTrans tx]}) -> P {["block" := VBlock b]} ->
  sends_only P (MiningServer.check_and_send b).
Proof.
  intros Ht Hb. unfold MiningServer.check_and_send.
  sends_step; [apply sends_only_chain_check_block|].
  sends_step.
  { sends_step. repeat first
      [ apply sends_only_cache_trans | apply sends_only_net_send | sends_step ]; done. }
  sends_step; [apply sends_only_chain_add_block|].
  sends_step. apply sends_only_dict_to_disk.
Qed.

Lemma sends_only_serve_mining turns :
  (forall tx, P {["trans" := VTrans tx]}) -> (forall b, P {["block" := VBlock b]}) ->
  sends_only P (MiningServer.serve_mining turns).
Proof.
  intros Ht Hb. induction turns as [|n IH]; cbn; [sends_step|].
  sends_step; [|done]. unfold MiningServer.serve_mining_turn.
  sends_step; [apply sends_only_update_block|].
  sends_step; [apply sends_only_mining|].
  by apply sends_only_check_and_send.
Qed.

Lemma sends_only_mining_make_trans trans :
  (forall tx, P {["trans" := VTrans tx]}) ->
  sends_only P (MiningServer.make_trans trans).
Proof.
  intros Ht. unfold MiningServer.make_trans.
  sends_step; [by apply sends_only_make_trans|].
  sends_step.
Qed.

Lemma sends_only_mining_serve_dispatch data :
  (forall l, l <> [] -> P {["peers" := VPeers l]}) ->
  (forall b, P {["block" := VBlock b]}) ->
  sends_only P (MiningServer.serve_dispatch data).
Proof.
  intros Hp Hb. unfold MiningServer.serve_dispatch.
  sends_step; [by apply sends_only_serve_dispatch|].
  destruct (truthy _); [|sends_step].
  sends_step; [unfold getitem; destruct (data !! "trans"); sends_step|].
  unfold MiningServer.add_trans_hlr, MiningServer.trans_from_dict.
  sends_step; [destruct a0; sends_step|apply sends_only_cache_trans].
Qed.

End sends.

Lemma mining_dispatch_trans (data : Msg) (tx : Transaction.t) (w : World MiningServer.t) :
  well_typed data = true ->
  data !! "trans" = Some (VTrans tx) ->
  let res0 := CoreServer.serve_dispatch data w in
  MiningServer.serve_dispatch data w =
  (Returned tt, world_after (MiningServer.cache_trans tx (world_after res0)),
   trace res0 ++ trace (MiningServer.cache_trans tx (world_after res0))).
Proof.
  intros Hwt Ht. pose proof (serve_dispatch_returns data w Hwt) as Ho.
  unfold MiningServer.serve_dispatch. cbn zeta.
  destruct (CoreServer.serve_dispatch data w) as [[o0 w0] tr0] eqn:E.
  cbn in Ho. subst o0. rewrite (bind_returned _ _ _ _ _ _ E).
  rewrite Ht. cbn [truthy]. unfold getitem. rewrite Ht.
  rewrite bind_ret_l. reflexivity.
Qed.

End mining_more.

Section more_facts.
Context {core : Collaborators}.

Lemma update_block_outcome (w : World MiningServer.t) :
  let exit := (MiningServer.wait_confirms (sched w) (node w)).1.2 in
  let res := MiningServer.update_block w in
  (get_block_confirms (CLI.chain (MiningServer.cli (node w))) (MiningServer.block (node w)) = 0 ->
   outcome res = Returned tt /\ exit = node w /\ sched (world_after res) = sched w) /\
  (outcome res = Returned tt ->
   get_block_confirms (CLI.chain (MiningServer.cli exit)) (MiningServer.block exit) = 0 /\
   node (world_after res) =
     MiningServer.Build (MiningServer.cli exit)
       (Some (Block.Build (Blockchain.hash (CLI.chain (MiningServer.cli exit)))
                (MiningServer.trans_cache exit)
                (Pow.Build None (User.pub (CLI.usr (MiningServer.cli exit)))) None))
       []).
Proof.
  pose proof (update_block_run w) as Hr.
  pose proof (wait_confirms_outcome (sched w) (node w)) as Ho.
  cbn zeta. split.
  - intros H0. clear Ho. destruct (sched w) as [|f rest] eqn:Hs; cbn in *;
      rewrite H0 in *; cbn in *; rewrite Hr; done.
  - destruct (MiningServer.wait_confirms _ _) as [[o s] rest].
    destruct Ho as [[-> H0]|(-> & _ & Hn)]; rewrite Hr; cbn; [done|discriminate].
Qed.

Lemma serve_dispatch_nothing {S} {st : CLI.State S} (data : Msg) (w : World S) :
  populated data "peers" = false -> populated data "block" = false ->
  CoreServer.serve_dispatch data w = (Returned tt, w, []).
Proof.
  intros Hp Hb. rewrite serve_dispatch_eq.
  rewrite (bind_returned _ _ _ tt w []) by by apply peers_entry_absent.
  by rewrite block_entry_absent.
Qed.

Lemma cli_make_trans_sent {S} {st : CLI.State S} (trans : Transaction.t) (w : World S) :
  let res := CLI.make_trans trans w in
  forall tx, outcome res = Returned tx ->
  forall m, m ∈ sent (trace res) -> m = {["trans" := VTrans tx]}.
Proof.
  unfold CLI.make_trans, CLI.passwd, CLI.act_with_passwd, input, asyncio_run.
  unfold_node. cbn. destruct (stdin w) as [|ans rest]; cbn; [done|].
  case_bool_decide; cbn; [|by intros tx _ m Hin; apply elem_of_nil in Hin].
  destruct (CLI.act_with_passwd_loop _ rest) as [[[pw|e|] rest'] tr] eqn:E; cbn; try done.
  assert (Hsil : sent tr = []).
  { clear -E. revert rest' tr E. induction rest as [|p rest IH]; intros rest' tr; cbn;
      [done|]. destruct (check_passwd _ p); [by intros [= <- <- <-]|].
    destruct (CLI.act_with_passwd_loop _ rest) as [[o r'] tr']. intros [= -> <- <-].
    cbn. by eapply IH. }
  destruct (trans_sign _ pw trans) as [signed|]; cbn; [|done].
  intros tx [= <-] m. unfold sent in *. rewrite omap_app, Hsil. cbn.
  by intros ->%list_elem_of_singleton.
Qed.

Lemma trans_only_dispatch (tx : Transaction.t) (w : World MiningServer.t) :
  MiningServer.serve_dispatch {["trans" := VTrans tx]} w = MiningServer.cache_trans tx w.
Proof. reflexivity. Qed.

Lemma deliveries_run (tx : Transaction.t) (n : nat) (w : World MiningServer.t) :
  world_after (for_each (replicate n ({["trans" := VTrans tx]} : Msg))
                 MiningServer.serve_dispatch w) =
  MkWorld (MiningServer.Build (MiningServer.cli (node w)) (MiningServer.block (node w))
             (cache w ++ replicate n tx)) (sched w) (stdin w).
Proof.
  revert w. induction n as [|n IH]; intros w; cbn [replicate for_each].
  - cbn. rewrite app_nil_r. by destruct w as [[] ? ?].
  - rewrite (bind_returned _ _ _ tt _ _ (trans_only_dispatch tx w)).
    cbn [world_after fst snd]. rewrite IH. cbn. by rewrite <- app_assoc.
Qed.

End more_facts.

(** * The node's behaviour *)

(** ** Inbound messages *)
Section dispatch.
Context {core : Collaborators} {S : Type} {st : CLI.State S}.

(** C3: for an inbound message whose [block] entry is the block [b], the
    node sends [b] on to its peers exactly when [check_block] answers [OK],
    and writes the chain to [blockchain.json] exactly when [add_block]
    reports a change.  [w0] is the node when the [block] handler starts (the
    [peers] entry of the same message, if any, is handled first); [w1] is the
    node when [add_block] is called (after the send, if there was one). *)
Theorem block_message_relay_and_persist (w : World S) (data : Msg) (b : Block.t) :
  well_typed data = true ->
  data !! "block" = Some (VBlock b) ->
  let w0 := world_after (CoreServer.serve_dispatch (delete "block" data) w) in
  let r := check_block (chain_of w0) b in
  let w1 := if is_OK r then world_after (yield w0) else w0 in
  let changed := (add_block (chain_of w1) b).2 in
  let res := CoreServer.serve_dispatch data w in
  outcome res = Returned tt /\
  checked (trace res) = [(b, r)] /\
  appended (trace res) = [(b, changed)] /\
  ({["block" := VBlock b]} ∈ sent (trace res) <-> r = OK) /\
  ("blockchain.json" ∈ written (trace res) <-> changed = true) /\
  (sched w = [] -> chain_of (world_after res) = (add_block (chain_of w) b).1).
Proof.
  intros Hwt Hb.
  assert (Hdel : peers_entry (delete "block" data) w = peers_entry data w).
  { unfold peers_entry, CoreServer.dispatch_entry, getitem.
    by rewrite (lookup_delete_ne data "block" "peers"). }
  destruct (peers_entry_trace data w) as (Ho & Hc & Ha & Hs & Hw & Hq).
  specialize (Ho Hwt). rewrite !serve_dispatch_eq.
  destruct (peers_entry data w) as [[o0 w0] tr0] eqn:E.
  cbn in Ho, Hc, Ha, Hs, Hw, Hq. subst o0.
  rewrite (bind_returned _ _ _ _ _ _ Hdel), (bind_returned _ _ _ _ _ _ E).
  rewrite block_entry_absent by (unfold populated; by rewrite lookup_delete_eq).
  rewrite (block_entry_present _ b) by done.
  cbn [outcome world_after trace fst snd].
  destruct (add_block_hlr_run w0 b) as (Hob & [obj Htr] & Hqb).
  cbn zeta in Hqb. rewrite Htr.
  assert (Hnb : ({["block" := VBlock b]} : Msg) ∉ sent tr0).
  { intros Hin. apply Hs in Hin as (l & _ & _ & Em).
    by apply singleton_msg_inj in Em as [? _]. }
  assert (Hnw : "blockchain.json" ∉ written tr0).
  { intros Hin. by apply Hw in Hin. }
  split_and!; [done| | | | |].
  5:{ intros Hs0. destruct (Hq Hs0) as [Hs1 <-]. by apply Hqb in Hs1 as (_ & _ & ->). }
  all: clear Hqb Hq Htr Hs Hw;
    unfold checked, appended, sent, written in *; rewrite !omap_app, ?Hc, ?Ha;
    destruct (check_block (chain_of w0) b) as [|why]; cbn;
    destruct (add_block _ b) as [bc [|]]; cbn;
    rewrite ?elem_of_app, ?list_elem_of_singleton, ?elem_of_nil;
    try done; try tauto; split; try done; intros [?|?]; done.
Qed.

(** C4, amended: for an inbound message whose [peers] entry is a non-empty
    list, the membership becomes the candidates exactly when their set
    differs from the current one, and the list is sent on and saved to
    [peers.json] exactly when it changed; an empty list is never handed to
    the handler: no update, no send, nothing saved. *)
Theorem peers_message_update (w : World S) (data : Msg) (l : list PeerDict.t) :
  data !! "peers" = Some (VPeers l) ->
  if decide (l = []) then peers_message_ignored w data l
  else peers_message_applied w data l.
Proof.
  intros Hp. unfold peers_message_ignored, peers_message_applied.
  rewrite !serve_dispatch_eq.
  case_decide as Hl.
  - subst l. rewrite (bind_returned _ _ _ tt w []);
      [|apply peers_entry_absent; unfold populated; by rewrite Hp].
    destruct (block_entry_trace data w) as (Hu & Hs & Hw & Hq).
    cbn [outcome world_after trace fst snd app]. split_and!; try done.
    + intros Hin. apply Hs in Hin as (b & _ & Em).
      by apply singleton_msg_inj in Em as [? _].
    + intros Hin. by apply Hw in Hin.
    + intros Hs0. by rewrite (Hq Hs0).
  - destruct (update_peers_hlr_run w l) as (Ho & [obj Htr] & Hq).
    cbn zeta in Hq.
    rewrite <- (peers_entry_present data l w Hp Hl) in Ho, Htr, Hq.
    destruct (peers_entry data w) as [[o0 w0] tr0] eqn:E.
    cbn in Ho, Htr. subst o0. rewrite (bind_returned _ _ _ _ _ _ E).
    destruct (block_entry_trace data w0) as (Hu & Hs & Hw & Hqb).
    cbn [outcome world_after trace fst snd] in *.
    assert (Hnb : ({["peers" := VPeers l]} : Msg) ∉ sent (trace (block_entry data w0))).
    { intros Hin. apply Hs in Hin as (b & _ & Em).
      by apply singleton_msg_inj in Em as [? _]. }
    assert (Hnw : "peers.json" ∉ written (trace (block_entry data w0))).
    { intros Hin. by apply Hw in Hin. }
    split_and!.
    4:{ intros Hs0. destruct (Hq Hs0) as (Hs1 & _ & <-). by rewrite (Hqb Hs1). }
    all: clear Hq Hqb Hs Hw;
      unfold peer_updates, sent, written in *; rewrite !omap_app, ?Hu, Htr;
      destruct (negb _); cbn;
      rewrite ?elem_of_app, ?list_elem_of_singleton, ?elem_of_cons, ?elem_of_nil;
      try done; try tauto; split; try done; intros [?|?]; done.
Qed.

End dispatch.

(** ** The mining node *)
Section node.
Context {core : Collaborators}.

(** C1: once [Miner.work()] has returned the block [b]: if [check_block]
    accepts it, the reward transaction is cached (and is in the template the
    next [update_block] builds) and the reward transaction and the block are
    sent, in this order; [add_block] is called once whatever the network
    delivered, and the chain is written exactly when it reports a change. *)
Theorem solved_block_rewarded_sent_appended (w : World MiningServer.t) (b : Block.t) :
  let r := check_block (chain_of w) b in
  let rw := MiningServer.reward_trans (chain_of w) b in
  let res := MiningServer.check_and_send b w in
  let next := MiningServer.update_block (world_after res) in
  outcome res = Returned tt /\
  (r = OK ->
   sent (trace res) = [{["trans" := VTrans rw]}; {["block" := VBlock b]}] /\
   (Forall keeps_cache (sched w) ->
    rw ∈ cache (world_after res) /\
    (outcome next = Returned tt ->
     exists template, MiningServer.block (node (world_after next)) = Some template /\
       rw ∈ Block.trans template))) /\
  (exists changed before after,
     trace res = before ++ AddBlock b changed :: after /\
     sent (trace res) = sent before /\
     appended (trace res) = [(b, changed)] /\
     written (trace res) = written after /\
     ("blockchain.json" ∈ written after <-> changed = true)) /\
  (forall d, MiningServer.check_and_send (core:=with_delivered core d) b w = res).
Proof.
  destruct (check_and_send_run w b) as (Ho & [obj Htr] & _ & Hk).
  cbn zeta in *. split; [done|]. split; [|split].
  - intros Hr. rewrite Hr in *. cbn [is_OK] in *. split.
    + rewrite Htr. cbn. by destruct (add_block _ _).2.
    + intros Hs. destruct (Hk Hs) as [Hk' Hin].
      assert (Hrw : MiningServer.reward_trans (chain_of w) b
                      ∈ cache (world_after (MiningServer.check_and_send b w))).
      { apply Hin. apply elem_of_app. right. by apply list_elem_of_singleton. }
      split; [done|]. intros Hn.
      destruct (update_block_outcome (world_after (MiningServer.check_and_send b w)))
        as [_ HR].
      destruct (HR Hn) as [_ Hnode]. rewrite Hnode. cbn. eexists. split; [done|]. cbn.
      by apply wait_confirms_keeps.
  - rewrite Htr. eexists _, (CheckBlock b _ :: _), _. split; [reflexivity|].
    destruct (is_OK _); cbn;
      destruct (add_block _ _).2; cbn; split_and!; try done;
      rewrite ?list_elem_of_singleton, ?elem_of_nil; done.
  - intros d. reflexivity.
Qed.

(** C5: when [update_block] returns, the new template's previous hash is
    the head of the chain, its transactions are the pending cache in cache
    order, and the cache is empty; it returns at once when the loop
    condition is false on entry. *)
Theorem update_block_moves_cache (w : World MiningServer.t) :
  let exit := (MiningServer.wait_confirms (sched w) (node w)).1.2 in
  let res := MiningServer.update_block w in
  (get_block_confirms (chain_of w) (MiningServer.block (node w)) = 0 ->
   outcome res = Returned tt /\ exit = node w) /\
  (outcome res = Returned tt ->
   exists template,
     MiningServer.block (node (world_after res)) = Some template /\
     Block.prev template = Blockchain.hash (chain_of (world_after res)) /\
     chain_of (world_after res) = CLI.chain (MiningServer.cli exit) /\
     Block.trans template = MiningServer.trans_cache exit /\
     cache (world_after res) = []).
Proof.
  destruct (update_block_outcome w) as [H0 HR]. cbn zeta in *. split.
  - intros Hc. by destruct (H0 Hc) as (? & ? & _).
  - intros Ho. destruct (HR Ho) as [_ Hn]. unfold chain_of. rewrite Hn. cbn. eauto 6.
Qed.

(** C6: the transaction built from [--trans] (there is one for every known
    action whose argument parses) has the user's public key as sender and is
    not a reward; the transaction sent after a block was
    solved has no sender and no signature, its action is
    [Reward(reward(), block.dict_hash())] and its receiver is the block's
    solver. *)
Theorem constructed_transactions_sender :
  (forall S (st : CLI.State S) (w : World S) (to kind act_args : string),
     (kind = "msg" \/ ((kind = "ivc" \/ kind = "pay") /\ is_Some (py_int act_args)) ->
      exists tx, outcome (Main.new_trans to kind act_args w) = Returned tx) /\
     (forall tx, outcome (Main.new_trans to kind act_args w) = Returned tx ->
      Transaction.from_adr tx = Some (User.pub (CLI.usr (CLI.cli_of (node w)))) /\
      Transaction.to_adr tx = to /\
      (forall a h, Transaction.act tx <> Reward a h))) /\
  (forall (w : World MiningServer.t) (b : Block.t) tx,
     {["trans" := VTrans tx]} ∈ sent (trace (MiningServer.check_and_send b w)) ->
     Transaction.from_adr tx = None /\
     Transaction.sign tx = None /\
     Transaction.act tx = Reward (reward (chain_of w)) (block_dict_hash b) /\
     Transaction.to_adr tx = Pow.solver (Block.pow b)).
Proof.
  split.
  - intros S st w to kind act_args. split; [apply new_trans_returns|].
    intros tx Ho.
    by destruct (new_trans_run to kind act_args w tx Ho) as (act & -> & Hact).
  - intros w b tx. pose proof (check_and_send_run w b) as Hrun. cbn zeta in Hrun.
    destruct Hrun as (_ & [obj Htr] & _). rewrite Htr.
    destruct (is_OK _), (add_block _ _).2; cbn;
      rewrite ?elem_of_cons, ?elem_of_nil; intros Hin; try done.
    all: destruct Hin as [Em|[Em|[]]]; apply singleton_msg_inj in Em as [? Ev];
      try done; injection Ev as Etx; by subst tx.
Qed.

(** C7: a mining node appends the transaction of a [trans] entry to its
    cache; the dispatch of a non-mining node does not look at the entry
    (it behaves as on the message without it) and sends no message with a
    [trans] key. *)
Theorem trans_message_cached_by_miner_only :
  (forall (w : World MiningServer.t) (data : Msg) tx,
     well_typed data = true ->
     data !! "trans" = Some (VTrans tx) ->
     let inherited := CoreServer.serve_dispatch data w in
     let res := MiningServer.serve_dispatch data w in
     outcome res = Returned tt /\
     cache (world_after res) = cache (world_after inherited) ++ [tx] /\
     (populated data "peers" = false -> populated data "block" = false ->
      cache (world_after res) = cache w ++ [tx])) /\
  (forall S (st : CLI.State S) (w : World S) (data : Msg),
     CoreServer.serve_dispatch data w = CoreServer.serve_dispatch (delete "trans" data) w /\
     Forall (fun m => m !! "trans" = None) (sent (trace (CoreServer.serve_dispatch data w)))).
Proof.
  split.
  - intros w data tx Hwt Ht. cbn zeta. rewrite (mining_dispatch_trans data tx w Hwt Ht).
    rewrite cache_trans_run. cbn [outcome world_after fst snd node].
    split_and!; [done|done|].
    intros Hp Hb. by rewrite serve_dispatch_nothing.
  - intros S st w data. split; [by rewrite serve_dispatch_ignores_trans|].
    apply (sends_only_serve_dispatch (fun m => m !! "trans" = None)); intros; reflexivity.
Qed.

(** C8: every message sent by [make_trans], by [update_self_peer], by the
    two dispatchers and by the mining loop has exactly one populated key
    among [peers], [block] and [trans].  The message of [update_self_peer]
    is the dictionary of the registry: it has the key [hash] beside
    [peers]. *)
Theorem broadcasts_have_one_populated_key :
  let one_key := fun m : Msg => one_populated_key m = true in
  (forall S (st : CLI.State S) trans, sends_only one_key (CLI.make_trans (S:=S) trans)) /\
  (forall S (st : CLI.State S), sends_only one_key (CLI.update_self_peer (S:=S))) /\
  (forall S (st : CLI.State S) (w : World S) m,
     m ∈ sent (trace (CLI.update_self_peer w)) ->
     dom m = ({["hash"; "peers"]} : gset string) /\
     m !! "hash" = Some (from_option VStr VNone (Net.hash (net_of w)))) /\
  (forall S (st : CLI.State S) data, sends_only one_key (CoreServer.serve_dispatch (S:=S) data)) /\
  (forall data, sends_only one_key (MiningServer.serve_dispatch data)) /\
  (forall trans, sends_only one_key (MiningServer.make_trans trans)) /\
  (forall turns, sends_only one_key (MiningServer.serve_mining turns)).
Proof.
  cbn zeta. split_and!; intros.
  - apply sends_only_make_trans. apply one_populated_trans.
  - intros w. rewrite update_self_peer_sent. constructor; [|constructor].
    by apply one_populated_net.
  - revert H. rewrite update_self_peer_sent. intros ->%list_elem_of_singleton.
    exact (to_dict_shape (Net.update_peer _ (net_of w))).
  - apply sends_only_serve_dispatch; [apply one_populated_peers|apply one_populated_block].
  - apply sends_only_mining_serve_dispatch;
      [apply one_populated_peers|apply one_populated_block].
  - apply sends_only_mining_make_trans. apply one_populated_trans.
  - apply sends_only_serve_mining; [apply one_populated_trans|apply one_populated_block].
Qed.

(** C9: for a block received from a peer and for a block solved locally,
    [add_block] is called exactly once whatever [check_block] answered; when
    the answer is not [OK] nothing is sent (and nothing is cached) but the
    call is made all the same, and the chain afterwards is the one
    [add_block] returns. *)
Theorem add_block_invoked_unconditionally :
  (forall S (st : CLI.State S) (w : World S) (b : Block.t),
     let r := check_block (chain_of w) b in
     let res := CoreServer.add_block_hlr (VBlock b) w in
     (exists changed, appended (trace res) = [(b, changed)]) /\
     (r <> OK ->
      sent (trace res) = [] /\
      appended (trace res) = [(b, (add_block (chain_of w) b).2)]) /\
     (sched w = [] -> chain_of (world_after res) = (add_block (chain_of w) b).1)) /\
  (forall (w : World MiningServer.t) (b : Block.t),
     let r := check_block (chain_of w) b in
     let res := MiningServer.check_and_send b w in
     (exists changed, appended (trace res) = [(b, changed)]) /\
     (r <> OK ->
      sent (trace res) = [] /\
      appended (trace res) = [(b, (add_block (chain_of w) b).2)]) /\
     (sched w = [] ->
      chain_of (world_after res) = (add_block (chain_of w) b).1 /\
      (r <> OK -> cache (world_after res) = cache w))).
Proof.
  split.
  - intros S st w b. destruct (add_block_hlr_run w b) as (_ & [obj Htr] & Hq).
    cbn zeta in *. rewrite Htr. split_and!.
    + destruct (is_OK _); cbn; destruct (add_block _ _).2; by eexists.
    + intros Hr. destruct (check_block (chain_of w) b); [done|]. cbn.
      by destruct (add_block _ _).2.
    + intros Hs. by destruct (Hq Hs) as (_ & _ & ->).
  - intros w b. destruct (check_and_send_run w b) as (_ & [obj Htr] & Hq & _).
    cbn zeta in *. rewrite Htr. split_and!.
    + destruct (is_OK _); cbn; destruct (add_block _ _).2; by eexists.
    + intros Hr. destruct (check_block (chain_of w) b); [done|]. cbn.
      by destruct (add_block _ _).2.
    + intros Hs. destruct (Hq Hs) as (_ & Hc & ->). split; [done|].
      intros Hr. by destruct (check_block (chain_of w) b).
Qed.

(** C10: [cache_trans] appends whatever it is given; [n] deliveries of the
    same [trans] message leave [n] copies in the cache and in the next
    template; the reward transaction the node broadcast, received back, is
    cached a second time. *)
Theorem cache_trans_unconditional :
  (forall (w : World MiningServer.t) tx,
     outcome (MiningServer.cache_trans tx w) = Returned tt /\
     cache (world_after (MiningServer.cache_trans tx w)) = cache w ++ [tx]) /\
  (forall (w : World MiningServer.t) tx (n : nat),
     let data : Msg := {["trans" := VTrans tx]} in
     let w' := world_after (for_each (replicate n data) MiningServer.serve_dispatch w) in
     cache w' = cache w ++ replicate n tx /\
     (get_block_confirms (chain_of w) (MiningServer.block (node w)) = 0 ->
      exists template,
        MiningServer.block (node (world_after (MiningServer.update_block w'))) = Some template /\
        Block.trans template = cache w ++ replicate n tx)) /\
  (forall (w : World MiningServer.t) (b : Block.t),
     let rw := MiningServer.reward_trans (chain_of w) b in
     let res := MiningServer.check_and_send b w in
     check_block (chain_of w) b = OK -> sched w = [] ->
     {["trans" := VTrans rw]} ∈ sent (trace res) /\
     cache (world_after (MiningServer.serve_dispatch {["trans" := VTrans rw]} (world_after res)))
       = cache w ++ [rw; rw]).
Proof.
  split_and!.
  - intros w tx. by rewrite cache_trans_run.
  - intros w tx n. cbn zeta. rewrite deliveries_run. split; [done|]. intros Hc.
    match goal with |- context [MiningServer.update_block ?x] =>
      destruct (update_block_outcome x) as [H0 HR] end.
    cbn zeta in *. destruct (H0 Hc) as (Ho & Hex & _).
    destruct (HR Ho) as [_ ->]. rewrite Hex. cbn. eauto.
  - intros w b. cbn zeta. intros Hr Hs.
    pose proof (check_and_send_run w b) as Hrun. cbn zeta in Hrun.
    destruct Hrun as (_ & [obj Htr] & Hq & _). destruct (Hq Hs) as (_ & Hc & _).
    rewrite Hr in *. cbn [is_OK] in *. split.
    + rewrite Htr. cbn. destruct (add_block _ _).2; cbn;
        rewrite !elem_of_cons; auto.
    + rewrite trans_only_dispatch, cache_trans_run.
      set (W := world_after (MiningServer.check_and_send b w)) in *.
      cbn. rewrite Hc. by rewrite <- app_assoc.
Qed.

(** C2: [update_block] goes on to a new template at once (no suspension)
    when the last block has no confirmation; when it has one, it suspends
    and tries again, for ever if no other task is left to run. *)
Theorem update_block_wait_inverted (w : World MiningServer.t) :
  let n := get_block_confirms (chain_of w) (MiningServer.block (node w)) in
  let res := MiningServer.update_block w in
  (n = 0 ->
   outcome res = Returned tt /\
   sched (world_after res) = sched w /\
   MiningServer.block (node (world_after res)) =
     Some (Block.Build (Blockchain.hash (chain_of w)) (cache w)
             (Pow.Build None (User.pub (CLI.usr (MiningServer.cli (node w))))) None)) /\
  (n <> 0 ->
   match sched w with
   | [] => outcome res = Diverged /\ node (world_after res) = node w
   | others :: rest =>
       res = MiningServer.update_block (MkWorld (others (node w)) rest (stdin w))
   end).
Proof.
  cbn zeta. split.
  - intros Hn. destruct (update_block_outcome w) as [H0 HR]. cbn zeta in *.
    destruct (H0 Hn) as (Ho & Hex & Hs). destruct (HR Ho) as [_ Hnode].
    rewrite Hnode, Hex. done.
  - intros Hn. apply Z.eqb_neq in Hn. unfold chain_of in Hn.
    destruct w as [s [|others rest] typed]; cbn [sched node stdin] in *;
      change (CLI.cli_of s) with (MiningServer.cli s) in Hn.
    + unfold MiningServer.update_block, bind, outcome, world_after.
      cbn [sched node stdin MiningServer.wait_confirms]. rewrite Hn. done.
    + unfold MiningServer.update_block, bind.
      cbn [sched node stdin MiningServer.wait_confirms]. rewrite Hn. reflexivity.
Qed.

End node.

(** ** The statements on the sample node *)

(** C2 on a miner whose last block [b1] is the head of its chain (another
    task is ready to run and does not get to), and on one whose last block
    has [b2] on top of it. *)
Lemma update_block_wait_inverted_witness :
  let goes_on := MiningServer.update_block (core:=Sample.collaborators)
                   (MkWorld Sample.unconfirmed [fun s => s] []) in
  let spins := MiningServer.update_block (core:=Sample.collaborators)
                 (MkWorld Sample.confirmed [] []) in
  (Sample.confirms Sample.chain1 (Some Sample.b1) = 0 /\
   outcome goes_on = Returned tt /\
   length (sched (world_after goes_on)) = 1%nat /\
   MiningServer.block (node (world_after goes_on)) =
     Some (Block.Build (Some "block-0") [Sample.pay7] (Pow.Build None "alice-pub") None)) /\
  (Sample.confirms Sample.chain2 (Some Sample.b1) = 1 /\
   outcome spins = Diverged /\
   node (world_after spins) = Sample.confirmed).
Proof.
  cbn zeta.
  destruct (update_block_wait_inverted (core:=Sample.collaborators)
              (MkWorld Sample.unconfirmed [fun s => s] [])) as [Hgo _].
  destruct (update_block_wait_inverted (core:=Sample.collaborators)
              (MkWorld Sample.confirmed [] [])) as [_ Hspin].
  assert (Hz : Sample.confirms Sample.chain1 (Some Sample.b1) = 0)
    by (vm_compute; reflexivity).
  destruct (Hgo Hz) as (Ho & Hs & Hb).
  assert (Hne : Sample.confirms Sample.chain2 (Some Sample.b1) <> 0)
    by (vm_compute; discriminate).
  destruct (Hspin Hne) as [Hd Hn].
  split; [|split; [vm_compute; reflexivity|split; [exact Hd|exact Hn]]].
  split; [exact Hz|]. split; [exact Ho|]. split; [rewrite Hs; reflexivity|].
  rewrite Hb. vm_compute. reflexivity.
Defined.

(** C3 on a node that receives the first block of the chain. *)
Lemma block_message_relay_and_persist_witness :
  let data : Msg := {["block" := VBlock Sample.b1]} in
  let tr := trace (CoreServer.serve_dispatch (core:=Sample.collaborators) data
                     Sample.core_world) in
  well_typed data = true /\
  data !! "block" = Some (VBlock Sample.b1) /\
  {["block" := VBlock Sample.b1]} ∈ sent tr /\
  "blockchain.json" ∈ written tr.
Proof.
  cbn zeta.
  pose proof (block_message_relay_and_persist (core:=Sample.collaborators)
                Sample.core_world {["block" := VBlock Sample.b1]} Sample.b1
                eq_refl eq_refl) as (_ & _ & _ & Hs & Hw & _).
  split; [reflexivity|]. split; [reflexivity|].
  split; [apply Hs|apply Hw]; reflexivity.
Defined.

(** C4: a [peers] message with an empty list names a candidate set (the
    empty one) that differs from the two peers of the sample node, and the
    membership stays what it was. *)
Lemma empty_peers_message_not_applied :
  let data : Msg := {["peers" := VPeers []]} in
  let res := CoreServer.serve_dispatch (core:=Sample.collaborators) data Sample.core_world in
  data !! "peers" = Some (VPeers []) /\
  Net.same_members [] (Net.peers (net_of Sample.core_world)) = false /\
  Net.peers (net_of (world_after res)) = [Sample.peer1; Sample.peer2] /\
  ~ peers_message_applied (core:=Sample.collaborators) Sample.core_world data [].
Proof.
  cbn zeta. split; [reflexivity|]. split; [reflexivity|]. split; [reflexivity|].
  intros (_ & _ & _ & Hq). specialize (Hq eq_refl).
  vm_compute in Hq. discriminate Hq.
Qed.

(** C4, amended, on a message that names one new peer. *)
Lemma peers_message_update_witness :
  let l := [PeerDict.Build "2002:aaaa::1" 10000] in
  let data : Msg := {["peers" := VPeers l]} in
  data !! "peers" = Some (VPeers l) /\
  peers_message_applied (core:=Sample.collaborators) Sample.core_world data l.
Proof.
  cbn zeta. split; [reflexivity|].
  exact (peers_message_update (core:=Sample.collaborators) Sample.core_world
           {["peers" := VPeers [PeerDict.Build "2002:aaaa::1" 10000]]}
           [PeerDict.Build "2002:aaaa::1" 10000] eq_refl).
Defined.

(** C1 on a miner that has just solved the first block. *)
Lemma solved_block_rewarded_sent_appended_witness :
  let w := MkWorld (MiningServer.Build Sample.cli0 (Some Sample.b1) [Sample.pay7]) [] [] in
  let res := MiningServer.check_and_send (core:=Sample.collaborators) Sample.b1 w in
  let rw := MiningServer.reward_trans (core:=Sample.collaborators) (chain_of w) Sample.b1 in
  Sample.check (chain_of w) Sample.b1 = OK /\
  Forall keeps_cache (sched w) /\
  sent (trace res) = [{["trans" := VTrans rw]}; {["block" := VBlock Sample.b1]}] /\
  rw ∈ cache (world_after res).
Proof.
  cbn zeta.
  pose proof (solved_block_rewarded_sent_appended (core:=Sample.collaborators)
    (MkWorld (MiningServer.Build Sample.cli0 (Some Sample.b1) [Sample.pay7]) [] [])
    Sample.b1) as (_ & Hok & _).
  destruct (Hok eq_refl) as [Hs Hk]. split; [reflexivity|].
  split; [constructor|]. split; [exact Hs|]. apply Hk. constructor.
Defined.

(** C5 on a miner with one pending transaction. *)
Lemma update_block_moves_cache_witness :
  let w := MkWorld Sample.unconfirmed [] [] in
  let res := MiningServer.update_block (core:=Sample.collaborators) w in
  Sample.confirms (chain_of w) (MiningServer.block (node w)) = 0 /\
  exists template,
    MiningServer.block (node (world_after res)) = Some template /\
    Block.prev template = Some "block-0" /\
    Block.trans template = [Sample.pay7] /\
    cache (world_after res) = [].
Proof.
  cbn zeta.
  destruct (update_block_moves_cache (core:=Sample.collaborators)
              (MkWorld Sample.unconfirmed [] [])) as [H0 HR].
  split; [reflexivity|]. destruct (H0 eq_refl) as [Ho _].
  destruct (HR Ho) as (template & Hb & Hp & _ & Ht & Hc).
  exists template. split; [exact Hb|]. split; [|split; [exact Ht|exact Hc]].
  rewrite Hp. reflexivity.
Defined.

(** C6 on [--trans carol-pub pay 25] and on the first solved block. *)
Lemma constructed_transactions_sender_witness :
  let tx := Transaction.Build (Some "alice-pub") "carol-pub" (Payment 25) None None in
  let w := MkWorld (MiningServer.Build Sample.cli0 (Some Sample.b1) []) [] [] in
  let rw := Transaction.Build None "alice-pub" (Reward 50 "block-0") None None in
  outcome (Main.new_trans (core:=Sample.collaborators) "carol-pub" "pay" "25"
             Sample.core_world) = Returned tx /\
  Transaction.from_adr tx = Some "alice-pub" /\
  {["trans" := VTrans rw]} ∈
    sent (trace (MiningServer.check_and_send (core:=Sample.collaborators) Sample.b1 w)) /\
  Transaction.from_adr rw = None.
Proof.
  cbn zeta.
  destruct (constructed_transactions_sender (core:=Sample.collaborators)) as [Hu Hr].
  split; [reflexivity|].
  split; [exact (proj1 (proj2 (Hu CLI.t _ Sample.core_world "carol-pub" "pay" "25")
                          _ eq_refl))|].
  assert (Hin : ({["trans" := VTrans
             (Transaction.Build None "alice-pub" (Reward 50 "block-0") None None)]} : Msg)
     ∈ sent (trace (MiningServer.check_and_send (core:=Sample.collaborators) Sample.b1
          (MkWorld (MiningServer.Build Sample.cli0 (Some Sample.b1) []) [] [])))).
  { apply list_elem_of_here. }
  split; [exact Hin|]. exact (proj1 (Hr _ _ _ Hin)).
Defined.

(** C7 on a miner that receives one payment. *)
Lemma trans_message_cached_by_miner_only_witness :
  let data : Msg := {["trans" := VTrans Sample.pay7]} in
  well_typed data = true /\
  data !! "trans" = Some (VTrans Sample.pay7) /\
  cache (world_after (MiningServer.serve_dispatch (core:=Sample.collaborators) data
                        Sample.miner_world)) = [Sample.pay7].
Proof.
  cbn zeta. split; [reflexivity|]. split; [reflexivity|].
  destruct (trans_message_cached_by_miner_only (core:=Sample.collaborators)) as [Hm _].
  assert (Hwt : well_typed ({["trans" := VTrans Sample.pay7]} : Msg) = true)
    by (vm_compute; reflexivity).
  destruct (Hm Sample.miner_world {["trans" := VTrans Sample.pay7]} Sample.pay7
              Hwt eq_refl) as (_ & _ & Hc).
  apply Hc; vm_compute; reflexivity.
Defined.

(** C9 on a block without proof of work, which the sample store rejects. *)
Lemma add_block_invoked_unconditionally_witness :
  let unsolved := Block.Build None [] (Pow.Build None "bob-pub") None in
  let res := CoreServer.add_block_hlr (core:=Sample.collaborators) (VBlock unsolved)
               Sample.core_world in
  Sample.check (chain_of Sample.core_world) unsolved <> OK /\
  sched Sample.core_world = [] /\
  sent (trace res) = [] /\
  appended (trace res) = [(unsolved, false)] /\
  chain_of (world_after res) = Sample.chain0.
Proof.
  cbn zeta.
  destruct (add_block_invoked_unconditionally (core:=Sample.collaborators)) as [Hc _].
  destruct (Hc CLI.t _ Sample.core_world
              (Block.Build None [] (Pow.Build None "bob-pub") None)) as (_ & Hr & Hq).
  assert (Hne : Sample.check (chain_of Sample.core_world)
                  (Block.Build None [] (Pow.Build None "bob-pub") None) <> OK)
    by discriminate.
  destruct (Hr Hne) as [Hs Ha].
  split; [exact Hne|]. split; [reflexivity|]. split; [exact Hs|].
  split; [exact Ha|]. exact (Hq eq_refl).
Defined.

(** C10 on a payment delivered twice to a miner without a block yet. *)
Lemma cache_trans_unconditional_witness :
  let data : Msg := {["trans" := VTrans Sample.pay7]} in
  let w' := world_after (for_each [data; data]
                (MiningServer.serve_dispatch (core:=Sample.collaborators))
                Sample.miner_world) in
  Sample.confirms (chain_of Sample.miner_world) None = 0 /\
  cache w' = [Sample.pay7; Sample.pay7] /\
  exists template,
    MiningServer.block (node (world_after
      (MiningServer.update_block (core:=Sample.collaborators) w'))) = Some template /\
    Block.trans template = [Sample.pay7; Sample.pay7].
Proof.
  cbn zeta.
  destruct (cache_trans_unconditional (core:=Sample.collaborators)) as (_ & Hd & _).
  destruct (Hd Sample.miner_world Sample.pay7 2%nat) as [Hc Ht].
  split; [reflexivity|]. split; [exact Hc|]. exact (Ht eq_refl).
Defined.

(** C8 on the announcement of the sample node at start-up. *)
Lemma broadcasts_have_one_populated_key_witness :
  let m := Net.to_dict (Net.update_peer (Peer.Build "::1" 10000) Sample.net0) in
  m ∈ sent (trace (CLI.update_self_peer (core:=Sample.collaborators) Sample.core_world)) /\
  one_populated_key m = true /\
  m !! "hash" = Some VNone.
Proof.
  cbn zeta.
  destruct (broadcasts_have_one_populated_key (core:=Sample.collaborators))
    as (_ & Hone & Hshape & _).
  assert (Hin : Net.to_dict (Net.update_peer (Peer.Build "::1" 10000) Sample.net0)
     ∈ sent (trace (CLI.update_self_peer (core:=Sample.collaborators) Sample.core_world))).
  { rewrite update_self_peer_sent. apply list_elem_of_here. }
  split; [exact Hin|]. split.
  - exact (proj1 (Forall_forall _ _) (Hone CLI.t _ Sample.core_world) _ Hin).
  - exact (proj2 (Hshape CLI.t _ Sample.core_world _ Hin)).
Defined.

(** * Further properties of the node *)

(** ** The monad, continued *)
Section laws.
Context {S : Type}.

Lemma bind_assoc {A B C} (m : M S A) (k : A -> M S B) (h : B -> M S C) w :
  bind (bind m k) h w = bind m (fun a => bind (k a) h) w.
Proof.
  unfold bind. destruct (m w) as [[[a|e|] w1] tr1]; try done.
  destruct (k a w1) as [[[b|e|] w2] tr2]; try done.
  destruct (h b w2) as [[o w3] tr3]. by rewrite app_assoc.
Qed.

Lemma bind_ext {A B} (m m' : M S A) (k k' : A -> M S B) w :
  m w = m' w -> (forall a w1, k a w1 = k' a w1) -> bind m k w = bind m' k' w.
Proof.
  intros Em Ek. unfold bind. rewrite Em.
  destruct (m' w) as [[[a|e|] w1] tr1]; try done. by rewrite Ek.
Qed.

Lemma bind_raised {A B} (m : M S A) (k : A -> M S B) w e w1 tr1 :
  m w = (Raised e, w1, tr1) -> bind m k w = (Raised e, w1, tr1).
Proof. intros E. unfold bind. by rewrite E. Qed.

End laws.

Lemma bind_diverged {S A B} (m : M S A) (k : A -> M S B) w w1 tr1 :
  m w = (Diverged, w1, tr1) -> bind m k w = (Diverged, w1, tr1).
Proof. intros E. unfold bind. by rewrite E. Qed.

Lemma run_eta {S A} (r : Outcome A * World S * list Event) :
  (outcome r, world_after r, trace r) = r.
Proof. by destruct r as [[??]?]. Qed.

(** ** The console *)
Section password_loop.
Context {core : Collaborators} {S : Type} {st : CLI.State S}.

Lemma act_with_passwd_loop_accepts {A} (act : string -> option A)
    (rejected : list string) (good : string) (rest : list string) (a : A) :
  Forall (fun line => act line = None) rejected -> act good = Some a ->
  CLI.act_with_passwd_loop act (rejected ++ good :: rest) =
    (Returned a, rest, replicate (length rejected) (Stdout InvalidPassword)).
Proof.
  intros Hrej Hgood. induction Hrej as [|line rejected Hline _ IH]; cbn.
  - by rewrite Hgood.
  - by rewrite Hline, IH.
Qed.

Lemma act_with_passwd_loop_spins {A} (act : string -> option A) (typed : list string) :
  Forall (fun line => act line = None) typed ->
  CLI.act_with_passwd_loop act typed =
    (Diverged, [], replicate (Datatypes.S (length typed)) (Stdout InvalidPassword)).
Proof.
  induction 1 as [|line typed Hline _ IH]; cbn; [done|]. by rewrite Hline, IH.
Qed.

(** X1: [act_with_passwd] returns what [act] makes of the first line it
    does not reject; it prints [Invalid password!] once for each line
    rejected before, and leaves the lines after it unread. *)
Theorem act_with_passwd_first_accepted {A} (act : string -> option A)
    (w : World S) (rejected : list string) (good : string) (rest : list string) (a : A) :
  stdin w = rejected ++ good :: rest ->
  Forall (fun line => act line = None) rejected -> act good = Some a ->
  CLI.act_with_passwd act w =
    (Returned a, MkWorld (node w) (sched w) rest,
     replicate (length rejected) (Stdout InvalidPassword)).
Proof.
  intros Hin Hrej Hgood. unfold CLI.act_with_passwd.
  by rewrite Hin, (act_with_passwd_loop_accepts act rejected good rest a).
Qed.

(** X2: [act_with_passwd] never raises.  When [act] rejects every line
    typed, it does not stop at the end of the input either: the [EOFError]
    of [getpass] is caught like a rejection, and the loop goes on without
    returning, having read all the input and printed nothing but
    [Invalid password!], more often than there were lines.  A result it
    returns was made by [act] from a line typed. *)
Theorem act_with_passwd_never_gives_up {A} (act : string -> option A) (w : World S) :
  let res := CLI.act_with_passwd act w in
  (forall e, outcome res <> Raised e) /\
  (Forall (fun line => act line = None) (stdin w) ->
   outcome res = Diverged /\
   stdin (world_after res) = [] /\
   Forall (fun e => e = Stdout InvalidPassword) (trace res) /\
   (length (stdin w) < length (trace res))%nat) /\
  (forall a, outcome res = Returned a -> exists line, line ∈ stdin w /\ act line = Some a).
Proof.
  cbn zeta. unfold CLI.act_with_passwd. split_and!.
  - intros e. generalize (stdin w) as typed.
    induction typed as [|line typed IH]; cbn; [done|].
    destruct (act line); [done|].
    by destruct (CLI.act_with_passwd_loop act typed) as [[o rest] tr].
  - intros Hrej. rewrite (act_with_passwd_loop_spins act _ Hrej).
    cbn [outcome world_after trace fst snd stdin]. split_and!; [done|done| |].
    + by apply Forall_replicate.
    + rewrite length_replicate. lia.
  - intros a. generalize (stdin w) as typed.
    induction typed as [|line typed IH]; cbn; [done|].
    destruct (act line) as [a'|] eqn:E.
    + intros [= <-]. exists line. split; [left|done].
    + destruct (CLI.act_with_passwd_loop act typed) as [[o rest] tr]. cbn in *.
      intros Ho. destruct (IH Ho) as (l & Hl & Hact). exists l. split; [by right|done].
Qed.

End password_loop.

Lemma gen_passwd_returns (bad : list (string * string)) (passwd : string) (rest : list string) :
  Forall mismatched bad ->
  Console.gen_passwd (lines_of bad ++ passwd :: passwd :: rest) =
    (Returned passwd, rest, replicate (length bad) Console.mismatch).
Proof.
  induction 1 as [|[p0 p1] bad Hp _ IH]; cbn.
  - by rewrite String.eqb_refl.
  - unfold mismatched in Hp. cbn in Hp. apply String.eqb_neq in Hp. rewrite Hp.
    unfold lines_of in IH. by rewrite IH.
Qed.

Lemma gen_passwd_step (p0 p1 : string) (rest : list string) :
  p0 <> p1 ->
  Console.gen_passwd (p0 :: p1 :: rest) =
    ((Console.gen_passwd rest).1.1, (Console.gen_passwd rest).1.2,
     Console.mismatch :: (Console.gen_passwd rest).2).
Proof.
  intros Hne%String.eqb_neq. cbn [Console.gen_passwd]. rewrite Hne.
  by destruct (Console.gen_passwd rest) as [[o r] out].
Qed.

(** X3: [gen_passwd] reads the lines two by two.  It returns exactly when
    it meets two equal lines, after one [Passwords mismatch] line for each
    pair before; otherwise it leaves with the [EOFError] of [getpass] once
    the input is exhausted (unlike [act_with_passwd], it never spins). *)
Theorem gen_passwd_stops_at_end_of_input (typed : list string) :
  match Console.gen_passwd typed with
  | (Returned passwd, rest, printed) =>
      exists bad, Forall mismatched bad /\
        typed = lines_of bad ++ passwd :: passwd :: rest /\
        printed = replicate (length bad) Console.mismatch
  | (Raised e, rest, printed) =>
      e = EOFError /\ rest = [] /\
      exists bad last, Forall mismatched bad /\ (length last <= 1)%nat /\
        typed = lines_of bad ++ last /\
        printed = replicate (length bad) Console.mismatch
  | (Diverged, _, _) => False
  end.
Proof.
  induction typed as [typed IH] using (induction_ltof1 _ (@length string)).
  unfold ltof in IH.
  destruct typed as [|p0 [|p1 rest]].
  - cbn. split_and!; [done|done|]. exists [], []. split_and!; [constructor|cbn; lia|done|done].
  - cbn. split_and!; [done|done|]. exists [], [p0]. split_and!; [constructor|cbn; lia|done|done].
  - destruct (String.eqb_spec p0 p1) as [<-|Hne].
    + cbn [Console.gen_passwd]. rewrite String.eqb_refl. exists []. split; [constructor|done].
    + rewrite (gen_passwd_step p0 p1 rest Hne).
      specialize (IH rest). destruct (Console.gen_passwd rest) as [[[pw|e|] r] out];
        cbn [fst snd]; [| |apply IH; cbn; lia].
      * destruct IH as (bad & Hb & -> & ->); [cbn; lia|].
        exists ((p0, p1) :: bad). split; [by constructor|done].
      * destruct IH as (-> & -> & bad & last & Hb & Hl & -> & ->); [cbn; lia|].
        split_and!; [done|done|]. exists ((p0, p1) :: bad), last.
        split_and!; [by constructor|done|done|done].
Qed.

(** X4: [usr_reg] announces the registration, then creates the user from
    the first password typed twice in a row, and reads no further. *)
Theorem usr_reg_password_typed_twice (create : string -> User.t)
    (bad : list (string * string)) (passwd : string) (rest : list string) :
  Forall mismatched bad ->
  Console.usr_reg create (lines_of bad ++ passwd :: passwd :: rest) =
    (Returned (create passwd), rest,
     Console.no_user :: replicate (length bad) Console.mismatch).
Proof.
  intros Hb. unfold Console.usr_reg. by rewrite gen_passwd_returns.
Qed.

Section transactions.
Context {core : Collaborators} {S : Type} {st : CLI.State S}.

Lemma act_with_passwd_loop_silent {A} (act : string -> option A) (typed : list string) :
  sent (CLI.act_with_passwd_loop act typed).2 = [].
Proof.
  induction typed as [|line typed IH]; cbn; [done|].
  destruct (act line); [done|].
  by destruct (CLI.act_with_passwd_loop act typed) as [[o rest] tr].
Qed.

Lemma act_with_passwd_loop_returned {A} (act : string -> option A) (typed : list string) a :
  (CLI.act_with_passwd_loop act typed).1.1 = Returned a ->
  exists line, line ∈ typed /\ act line = Some a.
Proof.
  induction typed as [|line typed IH]; cbn; [done|].
  destruct (act line) as [a'|] eqn:E.
  - intros [= <-]. exists line. split; [left|done].
  - destruct (CLI.act_with_passwd_loop act typed) as [[o rest] tr]. cbn in *.
    intros Ho. destruct (IH Ho) as (l & Hl & Hact). exists l. split; [by right|done].
Qed.

Lemma cli_make_trans_run (trans : Transaction.t) (w : World S) :
  let usr := CLI.usr (CLI.cli_of (node w)) in
  CLI.make_trans trans w =
  match stdin w with
  | [] => (Raised EOFError, w, [])
  | ans :: rest =>
      if bool_decide (ans ∈ ["y"; "Y"]) then
        let '(o, rest', tr) := CLI.act_with_passwd_loop (check_passwd usr) rest in
        let w' := MkWorld (node w) (sched w) rest' in
        match o with
        | Returned passwd =>
            match trans_sign usr passwd trans with
            | Some signed =>
                (Returned signed, w',
                 tr ++ [Send {["trans" := VTrans signed]}; Stdout (ShowTrans signed)])
            | None => (Raised AuthError, w', tr)
            end
        | Raised e => (Raised e, w', tr)
        | Diverged => (Diverged, w', tr)
        end
      else (Returned trans, MkWorld (node w) (sched w) rest, [])
  end.
Proof.
  unfold CLI.make_trans, CLI.passwd, CLI.act_with_passwd, input, asyncio_run.
  unfold_node. cbn. destruct (stdin w) as [|ans rest]; cbn; [done|].
  case_bool_decide; cbn; [|done].
  destruct (CLI.act_with_passwd_loop _ rest) as [[[pw|e|] rest'] tr]; cbn; try done.
  destruct (trans_sign _ pw trans); cbn; by rewrite ?app_nil_r.
Qed.

(** X5: whatever [make_trans] sends is the transaction signed: the answer to
    the prompt was [y] or [Y], [check_passwd] accepted one of the lines typed
    after it, and [sign] succeeded with the result; it is then the only
    message sent, and the call returns. *)
Theorem make_trans_sends_signed_only (trans : Transaction.t) (w : World S) :
  let res := CLI.make_trans trans w in
  let usr := CLI.usr (CLI.cli_of (node w)) in
  forall m, m ∈ sent (trace res) ->
  exists ans rest line passwd signed,
    stdin w = ans :: rest /\ (ans = "y" \/ ans = "Y") /\
    line ∈ rest /\ check_passwd usr line = Some passwd /\
    trans_sign usr passwd trans = Some signed /\
    m = {["trans" := VTrans signed]} /\
    sent (trace res) = [m] /\
    outcome res = Returned signed.
Proof.
  cbn zeta. rewrite cli_make_trans_run. cbn zeta.
  destruct (stdin w) as [|ans rest]; [by intros m Hin; apply elem_of_nil in Hin|].
  case_bool_decide as Hans; [|by intros m Hin; apply elem_of_nil in Hin].
  pose proof (act_with_passwd_loop_silent
    (check_passwd (CLI.usr (CLI.cli_of (node w)))) rest) as Hsil.
  pose proof (act_with_passwd_loop_returned
    (check_passwd (CLI.usr (CLI.cli_of (node w)))) rest) as Hret.
  destruct (CLI.act_with_passwd_loop _ rest) as [[[pw|e|] rest'] tr]; cbn [fst snd] in Hsil, Hret;
    try (cbn [trace snd]; rewrite Hsil; by intros m Hin; apply elem_of_nil in Hin).
  destruct (Hret pw eq_refl) as (line & Hline & Hact).
  destruct (trans_sign _ pw trans) as [signed|] eqn:Hsign;
    [|cbn [trace snd]; rewrite Hsil; by intros m Hin; apply elem_of_nil in Hin].
  cbn [trace snd outcome fst]. unfold sent in *. rewrite omap_app, Hsil. cbn.
  intros m ->%list_elem_of_singleton.
  exists ans, rest, line, pw, signed. split_and!; try done.
  apply elem_of_cons in Hans as [->| ->%list_elem_of_singleton]; auto.
Qed.

End transactions.

Section miner_console.
Context {core : Collaborators}.

(** X6: [MiningServer.make_trans] caches the transaction whenever the
    inherited [make_trans] returns, at most one message having been sent.
    An answer other than [y] or [Y] is such a case: nothing is signed or
    sent, and the transaction as given is in the cache. *)
Theorem miner_make_trans_caches_whatever_answer (trans : Transaction.t)
    (w : World MiningServer.t) :
  let res := MiningServer.make_trans trans w in
  (forall tx, outcome res = Returned tx ->
     cache (world_after res) = cache w ++ [tx] /\
     (sent (trace res) = [] \/ sent (trace res) = [{["trans" := VTrans tx]}])) /\
  (forall ans rest, stdin w = ans :: rest -> ans <> "y" -> ans <> "Y" ->
     outcome res = Returned trans /\
     sent (trace res) = [] /\
     cache (world_after res) = cache w ++ [trans]).
Proof.
  cbn zeta. unfold MiningServer.make_trans.
  pose proof (cli_make_trans_run trans w) as Hrun. cbn zeta in Hrun.
  destruct (stdin w) as [|ans rest] eqn:Hin.
  { rewrite (bind_raised _ _ _ _ _ _ Hrun). done. }
  case_bool_decide as Hans.
  - pose proof (act_with_passwd_loop_silent
      (check_passwd (CLI.usr (MiningServer.cli (node w)))) rest) as Hsil.
    change (CLI.cli_of (node w)) with (MiningServer.cli (node w)) in Hrun.
    destruct (CLI.act_with_passwd_loop _ rest) as [[[pw|e|] rest'] tr]; cbn [fst snd] in Hsil.
    2,3: unfold bind; rewrite Hrun; split; [done|];
      intros a r [= <- <-] Hy HY; exfalso;
      apply elem_of_cons in Hans as [->| ->%list_elem_of_singleton]; done.
    destruct (trans_sign _ pw trans) as [signed|].
    + rewrite (bind_returned _ _ _ _ _ _ Hrun). cbn. split.
      * intros tx [= <-]. split; [done|]. right.
        unfold sent in *. rewrite !omap_app, Hsil. done.
      * intros a r [= <- <-] Hy HY. exfalso.
        apply elem_of_cons in Hans as [->| ->%list_elem_of_singleton]; done.
    + rewrite (bind_raised _ _ _ _ _ _ Hrun). split; [done|].
      intros a r [= <- <-] Hy HY. exfalso.
      apply elem_of_cons in Hans as [->| ->%list_elem_of_singleton]; done.
  - rewrite (bind_returned _ _ _ _ _ _ Hrun). cbn. split.
    + intros tx [= <-]. auto.
    + intros a r [= <- <-]. done.
Qed.

End miner_console.

Section script.
Context {core : Collaborators} {S : Type} {st : CLI.State S}.

(** X7: for [--trans to act args], an action other than [ivc], [pay] and
    [msg] raises [KeyError], and an amount of [ivc] or [pay] that [int]
    refuses raises [ValueError], in both cases before [make_trans] is
    called: nothing is asked, printed or sent.  The argument of [msg] is
    never parsed. *)
Theorem trans_command_fails_before_the_prompt
    (serv_make_trans : Transaction.t -> M S Transaction.t)
    (to kind act_args : string) (w : World S) :
  let res := Main.trans_command serv_make_trans to kind act_args w in
  let sender := Some (User.pub (CLI.usr (CLI.cli_of (node w)))) in
  (kind <> "ivc" -> kind <> "pay" -> kind <> "msg" -> res = (Raised KeyError, w, [])) /\
  (kind = "ivc" \/ kind = "pay" -> py_int act_args = None ->
   res = (Raised ValueError, w, [])) /\
  (kind = "msg" ->
   res = serv_make_trans (Transaction.Build sender to (Message act_args) None None) w).
Proof.
  cbn zeta. unfold Main.trans_command, Main.new_trans, Main.make_act. split_and!.
  - intros H1%String.eqb_neq H2%String.eqb_neq H3%String.eqb_neq.
    rewrite H1, H2, H3. done.
  - intros [-> | ->] Hn; cbn; rewrite Hn; done.
  - intros ->. cbn. unfold CLI.self. unfold bind, get, ret. cbn.
    by destruct (serv_make_trans _ _) as [[??]?].
Qed.

End script.

(** ** Messages with several entries *)

Lemma lookup_only (key key' : string) (data : Msg) :
  only key data !! key' = if decide (key = key') then data !! key else None.
Proof.
  unfold only. destruct (data !! key) as [v|] eqn:E.
  - case_decide as Hk; [subst; by rewrite lookup_singleton_eq|by rewrite lookup_singleton_ne].
  - rewrite lookup_empty. by case_decide.
Qed.

Lemma lookup_only_eq (key : string) (data : Msg) : only key data !! key = data !! key.
Proof. rewrite lookup_only. by case_decide. Qed.

Lemma lookup_only_ne (key key' : string) (data : Msg) :
  key <> key' -> only key data !! key' = None.
Proof. intros Hk. rewrite lookup_only. by case_decide. Qed.

Section order.
Context {core : Collaborators}.

Lemma core_only_peers {S} {st : CLI.State S} (data : Msg) (w : World S) :
  CoreServer.serve_dispatch (only "peers" data) w = peers_entry data w.
Proof.
  rewrite serve_dispatch_eq.
  etrans; [|apply (bind_ret_tt (peers_entry data) w)].
  apply bind_ext.
  - unfold peers_entry, CoreServer.dispatch_entry, getitem. by rewrite lookup_only_eq.
  - intros [] w1. apply block_entry_absent. unfold populated. by rewrite lookup_only_ne.
Qed.

Lemma core_only_block {S} {st : CLI.State S} (data : Msg) (w : World S) :
  CoreServer.serve_dispatch (only "block" data) w = block_entry data w.
Proof.
  rewrite serve_dispatch_eq.
  rewrite (bind_returned _ _ _ tt w [])
    by (apply peers_entry_absent; unfold populated; by rewrite lookup_only_ne).
  unfold block_entry, CoreServer.dispatch_entry, getitem. rewrite lookup_only_eq.
  apply run_eta.
Qed.

Lemma core_only_trans {S} {st : CLI.State S} (data : Msg) (w : World S) :
  CoreServer.serve_dispatch (only "trans" data) w = (Returned tt, w, []).
Proof.
  apply serve_dispatch_nothing; unfold populated; by rewrite lookup_only_ne.
Qed.

Lemma mining_only_core (key : string) (data : Msg) (w : World MiningServer.t) :
  key <> "trans" ->
  MiningServer.serve_dispatch (only key data) w = CoreServer.serve_dispatch (only key data) w.
Proof.
  intros Hk. unfold MiningServer.serve_dispatch. rewrite lookup_only_ne by done.
  apply bind_ret_tt.
Qed.

Lemma mining_only_trans (data : Msg) (w : World MiningServer.t) :
  MiningServer.serve_dispatch (only "trans" data) w =
  (if truthy (data !! "trans")
   then bind (getitem data "trans") MiningServer.add_trans_hlr
   else ret tt) w.
Proof.
  unfold MiningServer.serve_dispatch.
  rewrite (bind_returned _ _ _ tt w []) by apply core_only_trans.
  unfold getitem. rewrite lookup_only_eq. apply run_eta.
Qed.

(** X8: a message with several entries is handled like the messages with
    one entry each, dispatched one after the other: [peers], then [block],
    and on a mining node then [trans]. *)
Theorem dispatch_handles_entries_in_order :
  (forall S (st : CLI.State S) (data : Msg) (w : World S),
     CoreServer.serve_dispatch data w =
     (CoreServer.serve_dispatch (only "peers" data) ;;;
      CoreServer.serve_dispatch (only "block" data)) w) /\
  (forall (data : Msg) (w : World MiningServer.t),
     MiningServer.serve_dispatch data w =
     (MiningServer.serve_dispatch (only "peers" data) ;;;
      MiningServer.serve_dispatch (only "block" data) ;;;
      MiningServer.serve_dispatch (only "trans" data)) w).
Proof.
  split.
  - intros S st data w. rewrite serve_dispatch_eq. apply bind_ext.
    + by rewrite core_only_peers.
    + intros _ w1. by rewrite core_only_block.
  - intros data w. unfold MiningServer.serve_dispatch at 1.
    etrans; [apply bind_ext; [apply serve_dispatch_eq|reflexivity]|].
    rewrite bind_assoc. apply bind_ext.
    + by rewrite mining_only_core, core_only_peers.
    + intros _ w1. apply bind_ext.
      * by rewrite mining_only_core, core_only_block.
      * intros _ w2. by rewrite mining_only_trans.
Qed.

(** X9: a populated entry that its handler cannot decode ends the dispatch
    with the exception, and the entries after it are not looked at.  With a
    bad [peers] entry nothing at all happens to the node; with a bad [block]
    entry what the [peers] entry did stays and the [trans] entry is not
    cached; with a bad [trans] entry what the inherited dispatch did
    stays. *)
Theorem malformed_entry_drops_the_rest (data : Msg) (v : Value) (w : World MiningServer.t) :
  truthy (Some v) = true ->
  (data !! "peers" = Some v -> (forall l, v <> VPeers l) ->
   MiningServer.serve_dispatch data w = (Raised TypeError, w, [])) /\
  (data !! "block" = Some v -> (forall b, v <> VBlock b) ->
   let first := MiningServer.serve_dispatch (only "peers" data) w in
   outcome first = Returned tt ->
   MiningServer.serve_dispatch data w = (Raised DecodeError, world_after first, trace first)) /\
  (data !! "trans" = Some v -> (forall tx, v <> VTrans tx) ->
   let first := CoreServer.serve_dispatch data w in
   outcome first = Returned tt ->
   MiningServer.serve_dispatch data w = (Raised DecodeError, world_after first, trace first)).
Proof.
  intros Hv. split_and!.
  - intros Hp Hl. unfold MiningServer.serve_dispatch.
    apply bind_raised. rewrite serve_dispatch_eq. apply bind_raised.
    unfold peers_entry, CoreServer.dispatch_entry, getitem. rewrite Hp, Hv.
    rewrite bind_ret_l. destruct v; try done. by destruct (Hl l).
  - intros Hb Hn. cbn zeta. rewrite mining_only_core, core_only_peers by done.
    intros Ho. unfold MiningServer.serve_dispatch. apply bind_raised.
    rewrite serve_dispatch_eq.
    destruct (peers_entry data w) as [[o w1] tr1] eqn:E. cbn in Ho. subst o.
    rewrite (bind_returned _ _ _ _ _ _ E). cbn [world_after trace fst snd].
    unfold block_entry, CoreServer.dispatch_entry, getitem. rewrite Hb, Hv.
    rewrite bind_ret_l. destruct v; cbn; rewrite ?app_nil_r; try done. by destruct (Hn b).
  - intros Ht Hn. cbn zeta. intros Ho. unfold MiningServer.serve_dispatch.
    destruct (CoreServer.serve_dispatch data w) as [[o w1] tr1] eqn:E. cbn in Ho. subst o.
    rewrite (bind_returned _ _ _ _ _ _ E). cbn [world_after trace fst snd].
    rewrite Ht, Hv. unfold getitem. rewrite Ht, bind_ret_l.
    destruct v; cbn; rewrite ?app_nil_r; try done. by destruct (Hn tx).
Qed.

End order.

(** ** The files *)

Section emits.
Context {S : Type} (Q : Event -> Prop).

Lemma emits_only_bind {A B} (m : M S A) (k : A -> M S B) :
  emits_only Q m -> (forall a, emits_only Q (k a)) -> emits_only Q (bind m k).
Proof.
  intros Hm Hk w. specialize (Hm w). unfold bind.
  destruct (m w) as [[[a|e|] w1] tr1]; cbn in *; try done.
  specialize (Hk a w1). destruct (k a w1) as [[o w2] tr2]; cbn in *.
  by apply Forall_app.
Qed.

Lemma emits_only_quiet {A} (m : M S A) :
  (forall w, trace (m w) = []) -> emits_only Q m.
Proof. intros Hm w. rewrite Hm. constructor. Qed.

Lemma emits_only_for_each {A} (l : list A) (body : A -> M S unit) :
  (forall x, emits_only Q (body x)) -> emits_only Q (for_each l body).
Proof.
  intros Hb. induction l as [|x l IH]; [by apply emits_only_quiet|].
  apply emits_only_bind; [apply Hb|done].
Qed.

End emits.

Ltac trace_events :=
  repeat first
    [ apply Forall_nil_2
    | apply Forall_cons_2; [cbn; first [exact I | by left | by right | done]|]
    | apply Forall_app; split ].

Section files.
Context {core : Collaborators}.

Lemma yields_run {S} (n : nat) (w : World S) :
  outcome (yields n w) = Returned tt /\ trace (yields n w) = [] /\
  (sched w = [] -> world_after (yields n w) = w).
Proof.
  revert w. induction n as [|n IH]; intros w; cbn [yields].
  - split_and!; done.
  - rewrite (bind_returned _ _ _ tt _ [] eq_refl). cbn [outcome world_after trace fst snd].
    destruct (IH (MkWorld (hd (fun s => s) (sched w) (node w)) (tl (sched w)) (stdin w)))
      as (Ho & Ht & Hw).
    split_and!; [done|by rewrite Ht|].
    intros Hs. rewrite Hw by (cbn; by rewrite Hs). destruct w as [s q i].
    cbn in Hs. by subst q.
Qed.

Lemma mining_run (w : World MiningServer.t) (b : Block.t) :
  MiningServer.block (node w) = Some b ->
  let res := MiningServer.mining w in
  outcome res = Returned (miner_work b).1 /\
  (exists line, trace res = [Stdout line]) /\
  (sched w = [] ->
   world_after res =
     MkWorld (MiningServer.Build (MiningServer.cli (node w)) (Some (miner_work b).1)
                (cache w)) [] (stdin w)).
Proof.
  intros Hb. cbn zeta. unfold MiningServer.mining.
  rewrite (bind_returned _ _ _ (node w) w [] eq_refl). rewrite Hb.
  destruct (miner_work b) as [solved n]. cbn [fst snd outcome world_after trace app].
  destruct (yields_run n w) as (Ho & Ht & Hw).
  destruct (yields n w) as [[o w1] tr] eqn:E. cbn in Ho, Ht, Hw. subst o tr.
  rewrite (bind_returned _ _ _ _ _ _ E). cbn. split_and!; [done|by eexists|].
  intros Hs. rewrite (Hw Hs). by rewrite Hs.
Qed.

Lemma mining_trace (w : World MiningServer.t) :
  Forall (fun e => exists line, e = Stdout line) (trace (MiningServer.mining w)).
Proof.
  destruct (MiningServer.block (node w)) as [b|] eqn:Hb.
  - destruct (mining_run w b Hb) as (_ & [line ->] & _). repeat constructor. by eexists.
  - unfold MiningServer.mining. rewrite (bind_returned _ _ _ (node w) w [] eq_refl).
    rewrite Hb. constructor.
Qed.

Lemma node_file_update_self_peer {S} {st : CLI.State S} :
  emits_only node_file (CLI.update_self_peer (S:=S)).
Proof.
  intros w. unfold CLI.update_self_peer, asyncio_run. unfold_node. cbn.
  repeat constructor.
Qed.

Lemma node_file_core_dispatch {S} {st : CLI.State S} (data : Msg) :
  emits_only node_file (CoreServer.serve_dispatch (S:=S) data).
Proof.
  intros w. rewrite serve_dispatch_eq. revert w.
  apply (emits_only_bind node_file (peers_entry data) (fun _ => block_entry data)).
  - intros w. destruct (peers_entry_cases data w) as [[_ ->]|[(l & _ & _ & ->)|[_ ->]]];
      [constructor| |constructor].
    destruct (update_peers_hlr_run w l) as (_ & [obj ->] & _).
    destruct (negb _); trace_events.
  - intros _ w. destruct (block_entry_cases data w) as [[_ ->]|[(b & _ & ->)|[_ ->]]];
      [constructor| |constructor].
    destruct (add_block_hlr_run w b) as (_ & [obj ->] & _).
    destruct (is_OK _), (add_block _ _).2; trace_events.
Qed.

Lemma node_file_mining_dispatch (data : Msg) :
  emits_only node_file (MiningServer.serve_dispatch data).
Proof.
  unfold MiningServer.serve_dispatch.
  apply emits_only_bind; [apply node_file_core_dispatch|]. intros _ w.
  destruct (truthy _); [|constructor]. unfold getitem.
  destruct (data !! "trans") as [v|]; [|constructor]. rewrite bind_ret_l.
  destruct v; trace_events.
Qed.

Lemma node_file_serve_mining (turns : nat) :
  emits_only node_file (MiningServer.serve_mining turns).
Proof.
  induction turns as [|n IH]; [by apply emits_only_quiet|].
  cbn [MiningServer.serve_mining]. apply emits_only_bind; [|done].
  unfold MiningServer.serve_mining_turn.
  apply emits_only_bind; [apply emits_only_quiet, update_block_trace|]. intros _.
  apply emits_only_bind.
  - intros w. eapply Forall_impl; [apply mining_trace|]. by intros e [line ->].
  - intros b w. destruct (check_and_send_run w b) as (_ & [obj ->] & _).
    destruct (is_OK _), (add_block _ _).2; trace_events.
Qed.

Lemma node_file_make_trans {S} {st : CLI.State S} (trans : Transaction.t) :
  emits_only node_file (CLI.make_trans (S:=S) trans).
Proof.
  intros w. rewrite cli_make_trans_run. cbn zeta.
  destruct (stdin w) as [|ans rest]; [constructor|].
  case_bool_decide; [|constructor].
  assert (Hloop : forall typed,
    Forall node_file (CLI.act_with_passwd_loop
      (check_passwd (CLI.usr (CLI.cli_of (node w)))) typed).2).
  { induction typed as [|line typed IH]; cbn; [repeat constructor|].
    destruct (check_passwd _ line); [constructor|].
    destruct (CLI.act_with_passwd_loop _ typed) as [[o r] tr]. by constructor. }
  specialize (Hloop rest).
  destruct (CLI.act_with_passwd_loop _ rest) as [[[pw|e|] rest'] tr]; cbn in *; try done.
  destruct (trans_sign _ pw trans); cbn; [|done].
  apply Forall_app. split; [done|repeat constructor].
Qed.

(** X10: [update_self_peer], [make_trans], the two dispatchers and the
    mining loop write to no file other than [peers.json] and
    [blockchain.json]. *)
Theorem server_writes_two_fixed_files :
  (forall S (st : CLI.State S), emits_only node_file (CLI.update_self_peer (S:=S))) /\
  (forall S (st : CLI.State S) trans, emits_only node_file (CLI.make_trans (S:=S) trans)) /\
  (forall S (st : CLI.State S) data, emits_only node_file (CoreServer.serve_dispatch (S:=S) data)) /\
  (forall data, emits_only node_file (MiningServer.serve_dispatch data)) /\
  (forall turns, emits_only node_file (MiningServer.serve_mining turns)).
Proof.
  split_and!; intros.
  - apply node_file_update_self_peer.
  - apply node_file_make_trans.
  - apply node_file_core_dispatch.
  - apply node_file_mining_dispatch.
  - apply node_file_serve_mining.
Qed.

Lemma replay_other_path (tr : list Event) (disk : Disk) (path : string) :
  Forall (fun e => match e with ToDisk p _ => p <> path | _ => True end) tr ->
  replay tr disk !! path = disk !! path.
Proof.
  intros Htr. revert disk. induction Htr as [|e tr He _ IH]; intros disk; [done|].
  cbn. change (fold_left _ tr ?d) with (replay tr d). rewrite IH.
  destruct e; try done. by rewrite lookup_insert_ne.
Qed.

Lemma replay_node_file (tr : list Event) (disk : Disk) (path : string) :
  Forall node_file tr -> path <> "peers.json" -> path <> "blockchain.json" ->
  replay tr disk !! path = disk !! path.
Proof.
  intros Htr Hp Hc. apply replay_other_path. eapply Forall_impl; [exact Htr|].
  intros [] He; try done. cbn in He. by destruct He as [-> | ->].
Qed.

Section startup.
Context {S : Type} {st : CLI.State S}.

Lemma init_ser_obj_run {A} (disk : Disk) (path : string)
    (reader : Persisted -> option A) (maker : unit -> A) (to_dict : A -> Persisted)
    (w : World S) :
  Startup._init_ser_obj disk path reader maker to_dict w =
  match disk !! path with
  | Some d =>
      match reader d with
      | Some obj => (Returned obj, w, [])
      | None => (Raised DecodeError, w, [])
      end
  | None =>
      (Returned (maker tt), MkWorld (node w) (sched w) (stdin w),
       [ToDisk path (to_dict (maker tt))])
  end.
Proof.
  unfold Startup._init_ser_obj. destruct (disk !! path) as [d|]; [by destruct (reader d)|].
  reflexivity.
Qed.

Lemma chain_init_run (disk : Disk) (path : string) (w : World S) :
  let c := CLI.cli_of (node w) in
  let loaded bc tr :=
    (Returned tt,
     MkWorld (CLI.with_cli (CLI.Build (CLI.net c) (CLI.usr c) bc) (node w)) (sched w) (stdin w),
     tr) in
  Startup.chain_init disk path w =
  match disk !! path with
  | Some (PChain bc) => loaded bc []
  | Some (PNet _) => (Raised DecodeError, w, [])
  | None => loaded CLI.chain_maker [ToDisk path (PChain CLI.chain_maker)]
  end.
Proof.
  cbn zeta. unfold Startup.chain_init, bind. rewrite init_ser_obj_run.
  by destruct (disk !! path) as [[n|bc]|].
Qed.

Lemma chain_init_restart (disk disk' : Disk) (path : string) (w w' : World S) :
  outcome (Startup.chain_init disk path w) = Returned tt ->
  disk' !! path = replay (trace (Startup.chain_init disk path w)) disk !! path ->
  outcome (Startup.chain_init disk' path w') = Returned tt /\
  trace (Startup.chain_init disk' path w') = [] /\
  chain_of (world_after (Startup.chain_init disk' path w')) =
    chain_of (world_after (Startup.chain_init disk path w)).
Proof.
  rewrite !chain_init_run. cbn zeta. unfold chain_of.
  destruct (disk !! path) as [[n|bc]|] eqn:E; cbn; intros Ho Hd; [done| |].
  - rewrite E in Hd. rewrite Hd. cbn. by rewrite !CLI.cli_of_with_cli.
  - rewrite lookup_insert_eq in Hd. rewrite Hd. cbn. by rewrite !CLI.cli_of_with_cli.
Qed.

End startup.

(** X11: a miner started on a chain file other than [blockchain.json]
    never writes that file again: whatever messages it handles and however
    many turns it mines, the file still holds the chain of the start, and a
    new start on the same path reads that chain back. *)
Theorem chain_file_elsewhere_is_never_updated
    (disk : Disk) (chain_path : string) (todo : list Activity)
    (w w' : World MiningServer.t) :
  chain_path <> "blockchain.json" -> chain_path <> "peers.json" ->
  let start := Startup.chain_init disk chain_path w in
  outcome start = Returned tt ->
  let served := for_each todo perform (world_after start) in
  let disk' := replay (trace served) (replay (trace start) disk) in
  let restart := Startup.chain_init disk' chain_path w' in
  disk' !! chain_path = Some (PChain (chain_of (world_after start))) /\
  outcome restart = Returned tt /\
  trace restart = [] /\
  chain_of (world_after restart) = chain_of (world_after start).
Proof.
  intros Hc Hp. cbn zeta. intros Ho.
  assert (Hd : replay (trace (for_each todo perform
                 (world_after (Startup.chain_init disk chain_path w))))
                 (replay (trace (Startup.chain_init disk chain_path w)) disk) !! chain_path
               = replay (trace (Startup.chain_init disk chain_path w)) disk !! chain_path).
  { apply replay_node_file; [|done..].
    apply (emits_only_for_each node_file todo perform).
    intros [data|turns]; [apply node_file_mining_dispatch|apply node_file_serve_mining]. }
  split; [|by apply chain_init_restart].
  rewrite Hd. revert Ho. rewrite chain_init_run. cbn zeta. unfold chain_of.
  destruct (disk !! chain_path) as [[n|bc]|] eqn:E; cbn; intros Ho; [done| |].
  - by rewrite E.
  - by rewrite lookup_insert_eq.
Qed.

End files.

Section persist.
Context {core : Collaborators}.

Lemma add_block_hlr_quiet {S} {st : CLI.State S} (w : World S) (b : Block.t) :
  sched w = [] ->
  let r := check_block (chain_of w) b in
  let added := add_block (chain_of w) b in
  let res := CoreServer.add_block_hlr (VBlock b) w in
  trace res = CheckBlock b r ::
     (if is_OK r then [Send {["block" := VBlock b]}] else []) ++
     AddBlock b added.2 ::
     (if added.2 then [ToDisk "blockchain.json" (PChain added.1)] else []) /\
  chain_of (world_after res) = added.1.
Proof.
  intros Hs. destruct w as [s q i]. cbn in Hs. subst q.
  unfold chain_of. unfold_node. cbn.
  destruct (check_block _ _); cbn;
    destruct (add_block _ _) as [bc [|]] eqn:E; cbn;
    rewrite ?CLI.cli_of_with_cli, ?E; done.
Qed.

Lemma check_and_send_quiet (w : World MiningServer.t) (b : Block.t) :
  sched w = [] ->
  let r := check_block (chain_of w) b in
  let rw := MiningServer.reward_trans (chain_of w) b in
  let added := add_block (chain_of w) b in
  let res := MiningServer.check_and_send b w in
  outcome res = Returned tt /\
  trace res = CheckBlock b r ::
     (if is_OK r
      then [Stdout (WillBeInNextBlock (String.substring 0 12 (trans_dict_hash rw)));
            Send {["trans" := VTrans rw]}; Send {["block" := VBlock b]}]
      else []) ++
     AddBlock b added.2 ::
     (if added.2 then [ToDisk "blockchain.json" (PChain added.1)] else []) /\
  world_after res =
    MkWorld (MiningServer.Build
               (CLI.Build (net_of w) (CLI.usr (MiningServer.cli (node w))) added.1)
               (MiningServer.block (node w))
               (if is_OK r then cache w ++ [rw] else cache w))
      [] (stdin w).
Proof.
  intros Hs. destruct w as [s q i]. cbn in Hs. subst q.
  unfold MiningServer.reward_trans, chain_of, net_of. unfold_node. cbn.
  destruct (check_block _ _); cbn;
    destruct (add_block _ _) as [bc [|]] eqn:E; cbn; rewrite ?E; done.
Qed.

Lemma replay_last_write (tr : list Event) (disk : Disk) (path : string) (obj : Persisted) :
  written tr = [path] -> ToDisk path obj ∈ tr -> replay tr disk !! path = Some obj.
Proof.
  revert disk. induction tr as [|e tr IH]; intros disk Hw Hin; [by apply elem_of_nil in Hin|].
  cbn. change (fold_left _ tr ?d) with (replay tr d).
  destruct e as [m|p o|line|b' r|b' c|l c]; cbn in Hw;
    try (apply elem_of_cons in Hin as [[=]|Hin]; by apply IH).
  injection Hw as -> Hw.
  rewrite replay_other_path.
  - apply elem_of_cons in Hin as [[= <-]|Hin]; [apply lookup_insert_eq|].
    exfalso. clear -Hw Hin. induction tr as [|e tr IH]; [by apply elem_of_nil in Hin|].
    apply elem_of_cons in Hin as [<-|Hin]; [done|]. destruct e; cbn in Hw; try done; auto.
  - clear -Hw. induction tr as [|e tr IH]; [constructor|].
    destruct e; cbn in Hw; try done; constructor; auto.
Qed.

(** X12: when [add_block] reports a change for a block received (or
    mined) on a node that no other task touches, the chain written to
    [blockchain.json] is the chain in memory: [chain_init] on that path gives
    it back. *)
Theorem accepted_block_survives_restart :
  (forall S (st : CLI.State S) (w w' : World S) (b : Block.t) (disk : Disk),
     sched w = [] -> (add_block (chain_of w) b).2 = true ->
     let res := CoreServer.serve_dispatch {["block" := VBlock b]} w in
     let restart := Startup.chain_init (replay (trace res) disk) "blockchain.json" w' in
     chain_of (world_after res) = (add_block (chain_of w) b).1 /\
     outcome restart = Returned tt /\
     chain_of (world_after restart) = chain_of (world_after res)) /\
  (forall (w w' : World MiningServer.t) (b : Block.t) (disk : Disk),
     sched w = [] -> (add_block (chain_of w) b).2 = true ->
     let res := MiningServer.check_and_send b w in
     let restart := Startup.chain_init (replay (trace res) disk) "blockchain.json" w' in
     chain_of (world_after res) = (add_block (chain_of w) b).1 /\
     outcome restart = Returned tt /\
     chain_of (world_after restart) = chain_of (world_after res)).
Proof.
  split.
  - intros S st w w' b disk Hs Hadd. cbn zeta.
    rewrite serve_dispatch_eq.
    rewrite (bind_returned _ _ _ tt w []) by by apply peers_entry_absent.
    rewrite (block_entry_present _ b) by apply lookup_singleton_eq.
    cbn [outcome world_after trace fst snd app].
    destruct (add_block_hlr_quiet w b Hs) as [Htr Hc]. cbn zeta in *.
    rewrite Hadd in Htr. split; [done|].
    assert (Hd : replay (trace (CoreServer.add_block_hlr (VBlock b) w)) disk
                   !! "blockchain.json" = Some (PChain (add_block (chain_of w) b).1)).
    { apply replay_last_write.
      - rewrite Htr. by destruct (is_OK _).
      - rewrite Htr. destruct (is_OK _); cbn; rewrite !elem_of_cons; auto 10. }
    rewrite chain_init_run. cbn zeta. rewrite Hd, Hc.
    unfold chain_of, outcome, world_after. cbn [fst snd node].
    by rewrite CLI.cli_of_with_cli.
  - intros w w' b disk Hs Hadd. cbn zeta.
    destruct (check_and_send_quiet w b Hs) as (_ & Htr & Hw). cbn zeta in *.
    rewrite Hadd in Htr.
    assert (Hc : chain_of (world_after (MiningServer.check_and_send b w))
                 = (add_block (chain_of w) b).1) by by rewrite Hw.
    split; [done|].
    assert (Hd : replay (trace (MiningServer.check_and_send b w)) disk
                   !! "blockchain.json" = Some (PChain (add_block (chain_of w) b).1)).
    { apply replay_last_write.
      - rewrite Htr. by destruct (is_OK _).
      - rewrite Htr. destruct (is_OK _); cbn; rewrite !elem_of_cons; auto 10. }
    rewrite chain_init_run. cbn zeta. rewrite Hd, Hc. done.
Qed.

End persist.

Section net_init.
Context {core : Collaborators} {S : Type} {st : CLI.State S}.

Lemma set_net_announce_run (n : Net.t) (w : World S) :
  let c := CLI.cli_of (node w) in
  let n' := Net.update_peer (Peer.Build (Net.ipv6 n) 10000) n in
  (CLI.set_net n ;;; CLI.update_self_peer) w =
  (Returned tt,
   MkWorld (CLI.with_cli (CLI.Build n' (CLI.usr c) (CLI.chain c))
              (CLI.with_cli (CLI.Build n (CLI.usr c) (CLI.chain c)) (node w)))
     (sched w) (stdin w),
   [Send (Net.to_dict n'); ToDisk "peers.json" (PNet n')]).
Proof.
  unfold CLI.update_self_peer, asyncio_run. unfold_node. cbn.
  by rewrite !CLI.cli_of_with_cli.
Qed.

Lemma net_init_run (disk : Disk) (ipv6 peers_path : string) (w : World S) :
  let c := CLI.cli_of (node w) in
  let announced n tr :=
    let n' := Net.update_peer (Peer.Build (Net.ipv6 n) 10000) n in
    (Returned tt,
     MkWorld (CLI.with_cli (CLI.Build n' (CLI.usr c) (CLI.chain c))
                (CLI.with_cli (CLI.Build n (CLI.usr c) (CLI.chain c)) (node w)))
       (sched w) (stdin w),
     tr ++ [Send (Net.to_dict n'); ToDisk "peers.json" (PNet n')]) in
  Startup.net_init disk ipv6 peers_path w =
  match disk !! peers_path with
  | Some (PNet n) => announced n []
  | Some (PChain _) => (Raised DecodeError, w, [])
  | None => announced (CLI.net_maker ipv6) [ToDisk peers_path (PNet (CLI.net_maker ipv6))]
  end.
Proof.
  cbn zeta. unfold Startup.net_init.
  pose proof (init_ser_obj_run disk peers_path Startup.net_reader
    (fun _ => CLI.net_maker ipv6) PNet w) as Hr.
  destruct (disk !! peers_path) as [[n|bc]|]; cbn [Startup.net_reader] in Hr.
  - rewrite (bind_returned _ _ _ _ _ _ Hr), set_net_announce_run. done.
  - by rewrite (bind_raised _ _ _ _ _ _ Hr).
  - rewrite (bind_returned _ _ _ _ _ _ Hr), set_net_announce_run. done.
Qed.

(** X13: when [net_init] returns, [peers.json] holds the registry in
    memory, own entry included, and this registry is the one message sent.
    The registry comes from the file at [peers_path], or is the new one with
    the two default peers; a [peers_path] other than [peers.json] holds the
    registry as found or made, without the update of the own entry. *)
Theorem net_init_saves_registry_to_peers_json
    (disk : Disk) (ipv6 peers_path : string) (w : World S) :
  let res := Startup.net_init disk ipv6 peers_path w in
  let disk' := replay (trace res) disk in
  let found := from_option id (PNet (CLI.net_maker ipv6)) (disk !! peers_path) in
  outcome res = Returned tt ->
  disk' !! "peers.json" = Some (PNet (net_of (world_after res))) /\
  sent (trace res) = [Net.to_dict (net_of (world_after res))] /\
  (exists n, found = PNet n /\
     net_of (world_after res) = Net.update_peer (Peer.Build (Net.ipv6 n) 10000) n) /\
  (peers_path <> "peers.json" -> disk' !! peers_path = Some found).
Proof.
  cbn zeta. rewrite net_init_run. cbn zeta. unfold net_of.
  destruct (disk !! peers_path) as [[n|bc]|] eqn:E; [| done |].
  all: cbn; rewrite !CLI.cli_of_with_cli; cbn; intros _; split_and!.
  all: try done.
  all: try (by rewrite lookup_insert_eq).
  all: try (by eexists).
  - intros Hp. by rewrite lookup_insert_ne.
  - intros Hp. by rewrite lookup_insert_ne, lookup_insert_eq.
Qed.

End net_init.

(** ** The mining loop over several turns *)

Section turns.
Context {core : Collaborators}.

Lemma update_block_cases (w : World MiningServer.t) :
  (exists w1 template,
     MiningServer.update_block w = (Returned tt, w1, []) /\
     MiningServer.block (node w1) = Some template) \/
  (exists w1, MiningServer.update_block w = (Diverged, w1, [])).
Proof.
  pose proof (update_block_run w) as Hr.
  pose proof (wait_confirms_outcome (sched w) (node w)) as Ho.
  destruct (MiningServer.wait_confirms _ _) as [[o s] rest].
  destruct Ho as [[-> _]|(-> & _ & _)]; rewrite Hr; [left|right]; by eauto.
Qed.

Lemma paired_app (l1 l2 : list Msg) : paired l1 -> paired l2 -> paired (l1 ++ l2).
Proof. induction 1; [done|]. intros. cbn. constructor. auto. Qed.

Lemma sent_app (tr1 tr2 : list Event) : sent (tr1 ++ tr2) = sent tr1 ++ sent tr2.
Proof. apply omap_app. Qed.

Lemma serve_mining_turn_cases (w : World MiningServer.t) :
  let res := MiningServer.serve_mining_turn w in
  (outcome res = Returned tt \/ outcome res = Diverged) /\
  paired (sent (trace res)).
Proof.
  cbn zeta. unfold MiningServer.serve_mining_turn.
  destruct (update_block_cases w) as [(w1 & template & E & Hb)|[w1 E]].
  2:{ rewrite (bind_diverged _ _ _ _ _ E). split; [by right|constructor]. }
  rewrite (bind_returned _ _ _ _ _ _ E). cbn [outcome world_after trace fst snd app].
  destruct (mining_run w1 template Hb) as (Ho & [line Ht] & _).
  destruct (MiningServer.mining w1) as [[o w2] tr2] eqn:E2. cbn in Ho, Ht. subst o tr2.
  rewrite (bind_returned _ _ _ _ _ _ E2). cbn [outcome world_after trace fst snd].
  destruct (check_and_send_run w2 (miner_work template).1) as (Ho & [obj Htr] & _).
  cbn zeta in *. rewrite Ho, Htr. split; [by left|].
  rewrite !sent_app.
  destruct (is_OK _), (add_block _ _).2; cbn; repeat constructor.
Qed.

(** X14: over any number of turns and whatever the other tasks do, the
    messages of [serve_mining] are a sequence of pairs, the reward for a
    block and then that block; and the loop never raises (the miner is never
    handed [None]). *)
Theorem serve_mining_sends_reward_then_block (turns : nat) (w : World MiningServer.t) :
  let res := MiningServer.serve_mining turns w in
  paired (sent (trace res)) /\
  (forall e, outcome res <> Raised e).
Proof.
  cbn zeta. revert w. induction turns as [|n IH]; intros w; cbn [MiningServer.serve_mining].
  - split; [constructor|done].
  - destruct (serve_mining_turn_cases w) as [Ho Hp]. cbn zeta in *.
    destruct (MiningServer.serve_mining_turn w) as [[o w1] tr1] eqn:E. cbn in Ho, Hp.
    destruct Ho as [-> | ->].
    + rewrite (bind_returned _ _ _ _ _ _ E). cbn [outcome world_after trace fst snd].
      destruct (IH w1) as [Hp' Ho']. split; [|done].
      rewrite sent_app. by apply paired_app.
    + rewrite (bind_diverged _ _ _ _ _ E). split; [apply Hp|done].
Qed.

(** X15: one turn of [serve_mining] on a node that no other task touches
    and whose last block has no confirmation.  The block mined is the
    miner's answer to the template holding the whole cache; it is checked and
    added once; afterwards the cache holds the reward alone when the check
    was [OK], and nothing otherwise: the transactions that went into a
    refused block are not kept. *)
Theorem quiet_turn_consumes_the_cache (w : World MiningServer.t) :
  sched w = [] ->
  get_block_confirms (chain_of w) (MiningServer.block (node w)) = 0 ->
  let usr := CLI.usr (MiningServer.cli (node w)) in
  let template :=
    Block.Build (Blockchain.hash (chain_of w)) (cache w)
      (Pow.Build None (User.pub usr)) None in
  let solved := (miner_work template).1 in
  let r := check_block (chain_of w) solved in
  let res := MiningServer.serve_mining_turn w in
  outcome res = Returned tt /\
  MiningServer.block (node (world_after res)) = Some solved /\
  checked (trace res) = [(solved, r)] /\
  appended (trace res) = [(solved, (add_block (chain_of w) solved).2)] /\
  chain_of (world_after res) = (add_block (chain_of w) solved).1 /\
  cache (world_after res) =
    (if is_OK r then [MiningServer.reward_trans (chain_of w) solved] else []).
Proof.
  intros Hs Hc. cbn zeta. unfold MiningServer.serve_mining_turn.
  destruct (update_block_outcome w) as [H0 HR]. cbn zeta in *.
  destruct (H0 Hc) as (Ho & Hex & Hsched). destruct (HR Ho) as [_ Hnode].
  clear H0 HR.
  pose proof (update_block_trace w) as Htr0.
  destruct (MiningServer.update_block w) as [[o w1] tr1] eqn:E.
  cbn in Ho, Hsched, Hnode, Htr0. subst o tr1. rewrite Hex in Hnode. rewrite Hs in Hsched.
  rewrite (bind_returned _ _ _ _ _ _ E). cbn [outcome world_after trace fst snd app].
  unfold chain_of in *. change (CLI.cli_of (node w)) with (MiningServer.cli (node w)) in *.
  set (template := Block.Build _ _ _ _) in *.
  assert (Hb : MiningServer.block (node w1) = Some template) by by rewrite Hnode.
  destruct (mining_run w1 template Hb) as (Ho & [line Ht] & Hw). specialize (Hw Hsched).
  destruct (MiningServer.mining w1) as [[o w2] tr2] eqn:E2. cbn in Ho, Ht, Hw. subst o tr2.
  rewrite (bind_returned _ _ _ _ _ _ E2). cbn [outcome world_after trace fst snd].
  assert (Hs2 : sched w2 = []) by by rewrite Hw.
  destruct (check_and_send_quiet w2 (miner_work template).1 Hs2) as (Ho & Htr & Hafter).
  cbn zeta in *. unfold chain_of in *.
  assert (Hch : CLI.chain (CLI.cli_of (node w2)) = CLI.chain (MiningServer.cli (node w)))
    by (rewrite Hw, Hnode; done).
  assert (Hca : cache w2 = []) by (rewrite Hw, Hnode; done).
  assert (Hbl : MiningServer.block (node w2) = Some (miner_work template).1)
    by (by rewrite Hw).
  rewrite Hch, Hca in *. rewrite Ho, Htr, Hafter. cbn [node MiningServer.block
    MiningServer.trans_cache MiningServer.cli CLI.chain CLI.cli_of MiningServer.state].
  split_and!; try done.
  all: destruct (is_OK _); try done; by destruct (add_block _ _).2.
Qed.

End turns.

(** ** The further statements on the sample node *)

(** X1 on the sample user: one wrong guess, then the password. *)
Lemma act_with_passwd_first_accepted_witness :
  CLI.act_with_passwd (check_passwd (Collaborators:=Sample.collaborators) Sample.alice)
    (MkWorld Sample.cli0 [] ["guess"; "secret"; "y"]) =
  (Returned "secret", MkWorld Sample.cli0 [] ["y"], [Stdout InvalidPassword]).
Proof.
  apply (act_with_passwd_first_accepted
           (check_passwd (Collaborators:=Sample.collaborators) Sample.alice)
           (MkWorld Sample.cli0 [] ["guess"; "secret"; "y"]) ["guess"] "secret" ["y"]).
  - reflexivity.
  - constructor; [reflexivity|constructor].
  - reflexivity.
Defined.

(** X2 on the sample user: two wrong guesses and the end of the input. *)
Lemma act_with_passwd_never_gives_up_witness :
  let res := CLI.act_with_passwd (check_passwd (Collaborators:=Sample.collaborators) Sample.alice)
               (MkWorld Sample.cli0 [] ["guess"; "again"]) in
  Forall (fun line => check_passwd (Collaborators:=Sample.collaborators) Sample.alice line
                        = None) ["guess"; "again"] /\
  outcome res = Diverged /\ (2 < length (trace res))%nat.
Proof.
  cbn zeta.
  assert (Hrej : Forall (fun line =>
            check_passwd (Collaborators:=Sample.collaborators) Sample.alice line = None)
            ["guess"; "again"]) by (repeat constructor).
  split; [exact Hrej|].
  destruct (act_with_passwd_never_gives_up
              (check_passwd (Collaborators:=Sample.collaborators) Sample.alice)
              (MkWorld Sample.cli0 [] ["guess"; "again"])) as (_ & Hspin & _).
  destruct (Hspin Hrej) as (Ho & _ & _ & Hlen). split; [exact Ho|exact Hlen].
Defined.

(** X4: a mistyped repetition, then the password twice. *)
Lemma usr_reg_password_typed_twice_witness :
  Forall mismatched [("secret", "secert")] /\
  Console.usr_reg (User.Build "new-pub") ["secret"; "secert"; "secret"; "secret"; "y"] =
    (Returned (User.Build "new-pub" "secret"), ["y"],
     [Console.no_user; Console.mismatch]).
Proof.
  assert (Hbad : Forall mismatched [("secret", "secert")])
    by (constructor; [discriminate|constructor]).
  split; [exact Hbad|].
  exact (usr_reg_password_typed_twice (User.Build "new-pub")
           [("secret", "secert")] "secret" ["y"] Hbad).
Defined.

(** X5 on the sample node: [y], a wrong guess, the password. *)
Lemma make_trans_sends_signed_only_witness :
  let res := CLI.make_trans (core:=Sample.collaborators) Scenario.draft
               (MkWorld Sample.cli0 [] ["y"; "guess"; "secret"]) in
  let m : Msg := {["trans" := VTrans Scenario.signed_draft]} in
  m ∈ sent (trace res) /\ sent (trace res) = [m].
Proof.
  cbn zeta.
  assert (Hin : ({["trans" := VTrans Scenario.signed_draft]} : Msg) ∈
    sent (trace (CLI.make_trans (core:=Sample.collaborators) Scenario.draft
                   (MkWorld Sample.cli0 [] ["y"; "guess"; "secret"])))).
  { assert (Hs : sent (trace (CLI.make_trans (core:=Sample.collaborators) Scenario.draft
                   (MkWorld Sample.cli0 [] ["y"; "guess"; "secret"])))
                 = [{["trans" := VTrans Scenario.signed_draft]}]) by (vm_compute; reflexivity).
    rewrite Hs. apply list_elem_of_here. }
  split; [exact Hin|].
  destruct (make_trans_sends_signed_only (core:=Sample.collaborators) Scenario.draft
              (MkWorld Sample.cli0 [] ["y"; "guess"; "secret"]) _ Hin)
    as (ans & rest & line & passwd & signed & _ & _ & _ & _ & _ & _ & Hs & _).
  exact Hs.
Defined.

(** X6 on the sample miner: the answer is [n]. *)
Lemma miner_make_trans_caches_whatever_answer_witness :
  let res := MiningServer.make_trans (core:=Sample.collaborators) Scenario.draft
               (MkWorld Sample.miner0 [] ["n"]) in
  outcome res = Returned Scenario.draft /\ sent (trace res) = [] /\
  cache (world_after res) = [Scenario.draft].
Proof.
  cbn zeta.
  destruct (miner_make_trans_caches_whatever_answer (core:=Sample.collaborators) Scenario.draft
              (MkWorld Sample.miner0 [] ["n"])) as [_ Hn].
  exact (Hn "n" [] eq_refl ltac:(discriminate) ltac:(discriminate)).
Defined.

(** X7 on the sample node: an action that is none of the three. *)
Lemma trans_command_fails_before_the_prompt_witness :
  Main.trans_command (core:=Sample.collaborators)
    (CLI.make_trans (core:=Sample.collaborators)) "bob-pub" "tip" "7"
    (MkWorld Sample.cli0 [] ["y"; "secret"]) =
  (Raised KeyError, MkWorld Sample.cli0 [] ["y"; "secret"], []).
Proof.
  destruct (trans_command_fails_before_the_prompt (core:=Sample.collaborators)
              (CLI.make_trans (core:=Sample.collaborators)) "bob-pub" "tip" "7" (MkWorld Sample.cli0 [] ["y"; "secret"]))
    as [Hk _].
  apply Hk; discriminate.
Defined.

(** X9 on the sample miner: a string where the peer list should be, beside
    a block and a transaction. *)
Lemma malformed_entry_drops_the_rest_witness :
  let data : Msg :=
    <["peers" := VStr "nobody"]> (<["block" := VBlock Sample.b1]>
      {["trans" := VTrans Sample.pay7]}) in
  truthy (Some (VStr "nobody")) = true /\
  data !! "peers" = Some (VStr "nobody") /\
  MiningServer.serve_dispatch (core:=Sample.collaborators) data Sample.miner_world =
    (Raised TypeError, Sample.miner_world, []).
Proof.
  cbn zeta. split; [reflexivity|].
  assert (Hp : (<["peers" := VStr "nobody"]> (<["block" := VBlock Sample.b1]>
      {["trans" := VTrans Sample.pay7]}) : Msg) !! "peers" = Some (VStr "nobody"))
    by (vm_compute; reflexivity).
  split; [exact Hp|].
  destruct (malformed_entry_drops_the_rest (core:=Sample.collaborators)
              (<["peers" := VStr "nobody"]> (<["block" := VBlock Sample.b1]>
                 {["trans" := VTrans Sample.pay7]}))
              (VStr "nobody") Sample.miner_world eq_refl) as [Hbad _].
  apply Hbad; [exact Hp|discriminate].
Defined.

(** X11 on the sample miner, started on [chain.json]: it takes in the
    block [b1], and a new start finds the empty chain. *)
Lemma chain_file_elsewhere_is_never_updated_witness :
  let start := Startup.chain_init ∅ "chain.json" Sample.miner_world in
  let served := for_each [Inbound {["block" := VBlock Sample.b1]}]
                  (perform (core:=Sample.collaborators)) (world_after start) in
  let disk' := replay (trace served) (replay (trace start) ∅) in
  let restart := Startup.chain_init disk' "chain.json" Sample.miner_world in
  outcome start = Returned tt /\
  Blockchain.hash (chain_of (world_after served)) = Some "block-0" /\
  chain_of (world_after restart) = chain_of (world_after start).
Proof.
  cbn zeta.
  assert (Ho : outcome (Startup.chain_init ∅ "chain.json"
                          Sample.miner_world) = Returned tt) by (vm_compute; reflexivity).
  split; [exact Ho|]. split; [vm_compute; reflexivity|].
  exact (proj2 (proj2 (proj2
    (chain_file_elsewhere_is_never_updated (core:=Sample.collaborators) ∅ "chain.json"
       [Inbound {["block" := VBlock Sample.b1]}] Sample.miner_world Sample.miner_world
       ltac:(discriminate) ltac:(discriminate) Ho)))).
Defined.

(** X12 on the sample node: the block [b1] is taken in and found again. *)
Lemma accepted_block_survives_restart_witness :
  let res := CoreServer.serve_dispatch (core:=Sample.collaborators)
               {["block" := VBlock Sample.b1]} Sample.core_world in
  let restart := Startup.chain_init
                   (replay (trace res) ∅) "blockchain.json" Sample.core_world in
  (add_block (Collaborators:=Sample.collaborators) (chain_of Sample.core_world) Sample.b1).2 = true /\
  chain_of (world_after restart) = chain_of (world_after res).
Proof.
  cbn zeta.
  assert (Hadd : (add_block (Collaborators:=Sample.collaborators)
                    (chain_of Sample.core_world) Sample.b1).2 = true)
    by (vm_compute; reflexivity).
  split; [exact Hadd|].
  destruct (accepted_block_survives_restart (core:=Sample.collaborators)) as [Hcore _].
  exact (proj2 (proj2 (Hcore CLI.t _ Sample.core_world Sample.core_world Sample.b1 ∅
                         eq_refl Hadd))).
Defined.

(** X13 on the sample node, started on [known.json], which does not
    exist. *)
Lemma net_init_saves_registry_to_peers_json_witness :
  let res := Startup.net_init (core:=Sample.collaborators) ∅ "::1" "known.json"
               Sample.core_world in
  outcome res = Returned tt /\
  replay (trace res) ∅ !! "peers.json" = Some (PNet (net_of (world_after res))) /\
  replay (trace res) ∅ !! "known.json" = Some (PNet (CLI.net_maker "::1")).
Proof.
  cbn zeta.
  assert (Ho : outcome (Startup.net_init (core:=Sample.collaborators) ∅ "::1" "known.json"
                          Sample.core_world) = Returned tt) by (vm_compute; reflexivity).
  split; [exact Ho|].
  destruct (net_init_saves_registry_to_peers_json (core:=Sample.collaborators)
              ∅ "::1" "known.json" Sample.core_world Ho) as (Hp & _ & _ & Hk).
  split; [exact Hp|]. apply Hk. discriminate.
Defined.

(** X15 on the sample miner with one transaction in its cache. *)
Lemma quiet_turn_consumes_the_cache_witness :
  let w := MkWorld (MiningServer.Build Sample.cli0 None [Sample.pay7]) [] [] in
  let res := MiningServer.serve_mining_turn (core:=Sample.collaborators) w in
  get_block_confirms (Collaborators:=Sample.collaborators) (chain_of w)
    (MiningServer.block (node w)) = 0 /\
  outcome res = Returned tt /\
  length (cache (world_after res)) = 1%nat.
Proof.
  cbn zeta.
  assert (Hc : get_block_confirms (Collaborators:=Sample.collaborators)
                 (chain_of (MkWorld (MiningServer.Build Sample.cli0 None [Sample.pay7]) [] []))
                 None = 0) by (vm_compute; reflexivity).
  split; [exact Hc|].
  destruct (quiet_turn_consumes_the_cache (core:=Sample.collaborators)
              (MkWorld (MiningServer.Build Sample.cli0 None [Sample.pay7]) [] [])
              eq_refl Hc) as (Ho & _ & _ & _ & _ & Hcache).
  split; [exact Ho|]. rewrite Hcache. vm_compute. reflexivity.
Defined.
